(** * Raster tutorial notebooks: a shallow embedding and its properties

  The repository holds two Jupyter notebooks, [raster.ipynb] (open,
  inspect, read and crop a population raster) and a longer one that goes on
  to threshold the cropped band, save it, read it back and vectorise it.

  Both are straight-line scripts over third-party libraries (rasterio,
  numpy, geopandas, shapely, xarray/rioxarray, geocube, matplotlib,
  pyprojroot).  The embedding therefore has three layers:

  - the values the scripts compute with (arrays, the profile dictionary,
    the bounding box, the labelled array) are Rocq data and the operations
    on them are Rocq functions;
  - every call into a library is a [call] answered by an environment, which
    may return or raise: for file access, reprojection, masking,
    vectorisation, printing and plotting the environment also decides the
    value; for the array, dictionary and path functions the value is the
    one the Rocq function computes;
  - the notebooks are programs in a state-and-exception monad that logs
    every call together with its answer.

  [import] statements only bind names and are not modelled as calls. *)

From Stdlib Require Import ZArith QArith Ascii String List Lia.
From stdpp Require Import base option list gmap strings.

Open Scope Z_scope.

(** ** numpy arrays *)

Module Numpy.

(** A band cell.  The dtype is whatever the raster file stores; every finite
    value of every raster dtype is a rational, and comparison with an
    integer literal is exact.  NaN and infinities are outside the model. *)
Definition cell : Type := Q.

(** A two-dimensional array: its [shape] and its cells in row-major order. *)
Record ndarray (A : Type) : Type := NdArray {
  shape0 : nat;
  shape1 : nat;
  flat : list A
}.
Arguments NdArray {A} _ _ _.
Arguments shape0 {A} _.
Arguments shape1 {A} _.
Arguments flat {A} _.

Definition shape {A} (a : ndarray A) : nat * nat := (shape0 a, shape1 a).

(** [a[i, j]] for indices in range. *)
Definition cell_at {A} (a : ndarray A) (i j : nat) : option A :=
  if decide (j < shape1 a)%nat then flat a !! (i * shape1 a + j)%nat else None.

(** [x > t] on one cell. *)
Definition cell_gt (x t : cell) : bool := negb (Qle_bool x t).

(** [a > t]: elementwise comparison with a scalar. *)
Definition np_gt (a : ndarray cell) (t : cell) : ndarray bool :=
  NdArray (shape0 a) (shape1 a) (map (fun x => cell_gt x t) (flat a)).

(** [np.where(cond, x, y)] with [x] an array of the shape of [cond] and [y]
    a scalar broadcast over it. *)
Definition np_where (cond : ndarray bool) (x : ndarray cell) (y : cell)
  : ndarray cell :=
  NdArray (shape0 cond) (shape1 cond)
          (zip_with (fun (c : bool) v => if c then v else y) (flat cond) (flat x)).

(** [astype] to int32 on one cell: a C cast, which truncates towards zero;
    integers beyond 32 bits wrap around. *)
Definition wrap_int32 (z : Z) : Z := (z + 2 ^ 31) mod 2 ^ 32 - 2 ^ 31.

Definition trunc (x : cell) : Z := Z.quot (Qnum x) (Z.pos (Qden x)).

Definition cell_astype_int32 (x : cell) : cell := inject_Z (wrap_int32 (trunc x)).

Definition astype_int32 (a : ndarray cell) : ndarray cell :=
  NdArray (shape0 a) (shape1 a) (map cell_astype_int32 (flat a)).

End Numpy.
Export Numpy.

(** ** The filtering step of the longer notebook

  <<
  mask = band_cropped > 5000
  filtered_band = np.where(mask, band_cropped, -200)
  >> *)

Definition threshold : cell := 5000%Q.
Definition fill_value : cell := (-200)%Q.

Definition mask_of (band_cropped : ndarray cell) : ndarray bool :=
np_gt band_cropped threshold.

Definition filtered_band_of (band_cropped : ndarray cell) : ndarray cell :=
let mask := mask_of band_cropped in
np_where mask band_cropped fill_value.

(** One cell of the filtering step. *)
Definition keep_or_fill (c : cell) : cell :=
if cell_gt c threshold then c else fill_value.

(** ** Values exchanged with the libraries *)

(** The six coefficients [a b c d e f] of an affine transform. *)
Record Affine : Type := MkAffine {
af_a : Q; af_b : Q; af_c : Q; af_d : Q; af_e : Q; af_f : Q
}.

(** A rasterio [Window]. *)
Record Window : Type := MkWindow {
col_off : Z; row_off : Z; win_width : Z; win_height : Z
}.

(** A shapely polygon, by its exterior ring. *)
Inductive geometry : Type :=
| Polygon (exterior : list (Q * Q)).

(** [shapely.box(minx, miny, maxx, maxy)]: the counter-clockwise rectangle. *)
Definition box (minx miny maxx maxy : Q) : geometry :=
Polygon [(maxx, miny); (maxx, maxy); (minx, maxy); (minx, miny); (maxx, miny)].

(** [box] applied to the unpacked list [bbox]: the call needs exactly four
    numbers. *)
Definition box_star (bbox : list Q) : option geometry :=
match bbox with
| [minx; miny; maxx; maxy] => Some (box minx miny maxx maxy)
| _ => None
end.

(** Values found in a raster profile and in dataset attributes. *)
Inductive pyval : Type :=
| VNone
| VBool (b : bool)
| VInt (z : Z)
| VNum (q : Q)
| VStr (s : string)
| VAffine (a : Affine)
| VBounds (left bottom right top : Q).

(** A raster profile is a dictionary with string keys. *)
Abbreviation Profile := (gmap string pyval).

(** [profile.update(transform=aff, height=h, width=w)] *)
Definition profile_update (p : Profile) (aff : Affine) (height width : nat) : Profile :=
<["width" := VInt (Z.of_nat width)]>
  (<["height" := VInt (Z.of_nat height)]>
    (<["transform" := VAffine aff]> p)).

(** A GeoDataFrame: column names, the values of its data column, its geometry
    column and its CRS. *)
Record geodataframe : Type := GeoDataFrame {
gdf_columns : list string;
gdf_data : list cell;
gdf_geometry : list geometry;
gdf_crs : string
}.

(** An xarray [DataArray] with the rioxarray attributes the notebook sets. *)
Record dataarray : Type := DataArray {
xa_data : ndarray cell;
xa_dtype : option string;
xa_nodata : option cell;
xa_transform : option Affine;
xa_crs : option string
}.

Definition xr_DataArray (a : ndarray cell) : dataarray :=
DataArray a None None None None.

Definition xa_astype_int32 (x : dataarray) : dataarray :=
DataArray (astype_int32 (xa_data x)) (Some "int32"%string)
          (xa_nodata x) (xa_transform x) (xa_crs x).

Definition rio_write_nodata (nodata : cell) (x : dataarray) : dataarray :=
DataArray (xa_data x) (xa_dtype x) (Some nodata) (xa_transform x) (xa_crs x).

Definition rio_write_transform (t : Affine) (x : dataarray) : dataarray :=
DataArray (xa_data x) (xa_dtype x) (xa_nodata x) (Some t) (xa_crs x).

Definition rio_set_crs (crs : string) (x : dataarray) : dataarray :=
DataArray (xa_data x) (xa_dtype x) (xa_nodata x) (xa_transform x) (Some crs).

(** <<
    x_array = (
        xr.DataArray(filtered_band)
        .astype("int32")
        .rio.write_nodata(-200)
        .rio.write_transform(aff)
        .rio.set_crs("ESRI: 54009", inplace=True)
    )
    >> *)
Definition x_array_of (filtered_band : ndarray cell) (aff : Affine) : dataarray :=
rio_set_crs "ESRI: 54009"
  (rio_write_transform aff
    (rio_write_nodata (-200)%Q
      (xa_astype_int32 (xr_DataArray filtered_band)))).

(** [os.path.join(a, b)] on POSIX paths. *)
Definition ends_with_slash (s : string) : bool :=
match String.get (String.length s - 1) s with
| Some "/"%char => true
| _ => false
end.

Definition path_join (a b : string) : string :=
if String.prefix "/" b then b
else if (String.eqb a EmptyString || ends_with_slash a)%bool then String.append a b
else String.append a (String.append "/" b).
Arguments path_join : simpl never.

(** ** Calls into the libraries *)

(** An open rasterio dataset is known to the script by its handle. *)
Abbreviation DatasetHandle := nat.

(** What [print] is given. *)
Inductive printable : Type :=
| PFmt (label : string) (v : pyval)
| PArray (a : ndarray cell)
| PType (name : string)
| PProfile (p : Profile)
| PDataArray (x : dataarray).

(** The library functions whose value the model computes: the call may still
    raise, and when it returns, it returns [lib_value]. *)
Inductive libfun : Type :=
| OsPathJoin (a b : string)
| ShapelyBox (bbox : list Q)
| GeometryValues (g : geodataframe)
| NpGreater (a : ndarray cell) (t : cell)
| NpWhere (cond : ndarray bool) (x : ndarray cell) (y : cell)
| ProfileUpdate (p : Profile) (transform : Affine) (height width : nat)
| XrDataArray (a : ndarray cell)
| XaAstypeInt32 (x : dataarray)
| RioWriteNodata (nodata : cell) (x : dataarray)
| RioWriteTransform (t : Affine) (x : dataarray)
| RioSetCrs (crs : string) (x : dataarray).

Definition lib_type (f : libfun) : Type :=
match f with
| OsPathJoin _ _ => string
| ShapelyBox _ => option geometry
| GeometryValues _ => list geometry
| NpGreater _ _ => ndarray bool
| NpWhere _ _ _ => ndarray cell
| ProfileUpdate _ _ _ _ => Profile
| XrDataArray _ | XaAstypeInt32 _ | RioWriteNodata _ _ | RioWriteTransform _ _
| RioSetCrs _ _ => dataarray
end.

Definition lib_value (f : libfun) : lib_type f :=
match f with
| OsPathJoin a b => path_join a b
| ShapelyBox bbox => box_star bbox
| GeometryValues g => gdf_geometry g
| NpGreater a t => np_gt a t
| NpWhere cond x y => np_where cond x y
| ProfileUpdate p transform height width => profile_update p transform height width
| XrDataArray a => xr_DataArray a
| XaAstypeInt32 x => xa_astype_int32 x
| RioWriteNodata nodata x => rio_write_nodata nodata x
| RioWriteTransform t x => rio_write_transform t x
| RioSetCrs crs x => rio_set_crs crs x
end.

Definition lib_name (f : libfun) : string :=
match f with
| OsPathJoin _ _ => "os.path.join"
| ShapelyBox _ => "box"
| GeometryValues _ => "geometry.values"
| NpGreater _ _ => ">"
| NpWhere _ _ _ => "np.where"
| ProfileUpdate _ _ _ _ => "profile.update"
| XrDataArray _ => "xr.DataArray"
| XaAstypeInt32 _ => "astype"
| RioWriteNodata _ _ => "rio.write_nodata"
| RioWriteTransform _ _ => "rio.write_transform"
| RioSetCrs _ _ => "rio.set_crs"
end.

Inductive call : Type :=
| Compute (f : libfun)
| Here (rel : string)
| RioOpen (p : string)
| RioOpenW (p : string) (kwargs : Profile)
| DsAttr (ds : DatasetHandle) (name : string)
| DsProfile (ds : DatasetHandle)
| DsRead (ds : DatasetHandle) (indexes : Z) (win : option Window)
| DsWrite (ds : DatasetHandle) (arr : ndarray cell) (indexes : Z)
| DsClose (ds : DatasetHandle)
| Print (x : printable)
| Imshow (a : ndarray cell)
| MkGeoDataFrame (geoms : list geometry) (crs : string)
| ToCrs (g : geodataframe) (crs : string)
| RasterGeometryMask (ds : DatasetHandle) (shapes : list geometry) (crop all_touched : bool)
| Vectorize (x : dataarray)
| SetColumns (g : geodataframe) (cols : list string)
| Explore (g : geodataframe).

(** The type of the value a call returns. *)
Definition ret_type (c : call) : Type :=
match c with
| Here _ => string
| RioOpen _ | RioOpenW _ _ => DatasetHandle
| DsAttr _ _ => pyval
| DsProfile _ => Profile
| DsRead _ _ _ => ndarray cell
| Compute _ | DsWrite _ _ _ | DsClose _ | Print _ | Imshow _ | Explore _ => unit
| MkGeoDataFrame _ _ | ToCrs _ _ | Vectorize _ | SetColumns _ _ => geodataframe
| RasterGeometryMask _ _ _ _ => (ndarray bool * Affine * Window)%type
end.

(** A Python exception: its class and its message. *)
Inductive exn : Type :=
| PyErr (cls msg : string).

Inductive outcome (A : Type) : Type :=
| Returned (a : A)
| Raised (e : exn).
Arguments Returned {A} a.
Arguments Raised {A} e.

(** The libraries and everything behind them (file system, screen): a call
    in a world returns or raises, and leaves a world. *)
Definition environment (world : Type) : Type :=
forall c : call, world -> outcome (ret_type c) * world.

(** One logged call with its answer. *)
Definition entry : Type := { c : call & outcome (ret_type c) }.

Definition entry_call (x : entry) : call := projT1 x.

Definition entry_raised (x : entry) : option exn :=
match projT2 x with
| Returned _ => None
| Raised e => Some e
end.

(** ** The monad the notebooks run in *)

Record state (world : Type) : Type := State {
st_world : world;
st_log : list entry
}.
Arguments State {world} _ _.
Arguments st_world {world} _.
Arguments st_log {world} _.

Definition trace {world} (s : state world) : list entry := rev (st_log s).

Definition init {world} (w : world) : state world := State w [].

Definition M (world : Type) (A : Type) : Type :=
state world -> outcome A * state world.

#[global] Instance M_ret {world} : MRet (M world) :=
fun A (a : A) s => (Returned a, s).

#[global] Instance M_bind {world} : MBind (M world) :=
fun A B (k : A -> M world B) (m : M world A) s =>
  match m s with
  | (Returned a, s') => k a s'
  | (Raised e, s') => (Raised e, s')
  end.

(** A raise by the interpreter itself (a wrong number of arguments). *)
Definition raise {world A} (e : exn) : M world A :=
fun s => (Raised e, s).

Definition unpack {world A} (o : option A) : M world A :=
match o with
| Some a => mret a
| None => raise (PyErr "TypeError" "wrong number of positional arguments")
end.

(** A library call: ask the environment, log the call and its answer. *)
Definition do_call {world} (env : environment world) (c : call)
  : M world (ret_type c) :=
fun s =>
  let '(r, w') := env c (st_world s) in
  (r, State w' (existT c r :: st_log s)).

(** A library function the model computes: the call is made and logged like
    any other and may raise; when it returns, the value is [lib_value]. *)
Definition compute {world} (env : environment world) (f : libfun)
  : M world (lib_type f) :=
do_call env (Compute f);;
mret (lib_value f).

(** [try: body finally: cleanup], which is what leaving a [with] block does:
    the cleanup runs on both exits; an exception of the body goes on after
    it, unless the cleanup raises itself. *)
Definition finally {world A} (body : M world A) (cleanup : M world unit)
  : M world A :=
fun s =>
  match body s with
  | (Returned a, s') =>
      match cleanup s' with
      | (Returned _, s'') => (Returned a, s'')
      | (Raised e, s'') => (Raised e, s'')
      end
  | (Raised e, s') =>
      match cleanup s' with
      | (Returned _, s'') => (Raised e, s'')
      | (Raised e', s'') => (Raised e', s'')
      end
  end.

(** [with open_ as ds: body ds].  The name [ds] stays bound afterwards. *)
Definition with_ {world A} (env : environment world)
  (open_ : M world DatasetHandle) (body : DatasetHandle -> M world A)
  : M world (DatasetHandle * A) :=
ds ← open_;
a ← finally (body ds) (do_call env (DsClose ds));
mret (ds, a).

Definition newline : string := String (ascii_of_nat 10) EmptyString.

(** ** The shorter notebook, [raster.ipynb] *)

Module Raster.
Section Cells.
Context {world : Type} (env : environment world).

(** <<
    path = here("data")
    dataset = rio.open(
        os.path.join(path, "GHS_POP_E2020_GLOBE_R2023A_54009_1000_V1_0_R3_C18.tif")
    )
    >> *)
Definition cell_read_file : M world (string * DatasetHandle) :=
path ← do_call env (Here "data");
file ← compute env
  (OsPathJoin path "GHS_POP_E2020_GLOBE_R2023A_54009_1000_V1_0_R3_C18.tif");
dataset ← do_call env (RioOpen file);
mret (path, dataset).

(** The six [print(f"...{dataset.attr}")] lines. *)
Definition cell_properties (dataset : DatasetHandle) : M world unit :=
v ← do_call env (DsAttr dataset "count");
do_call env (Print (PFmt "Number of layers: " v));;
v ← do_call env (DsAttr dataset "width");
do_call env (Print (PFmt "Number of columns: " v));;
v ← do_call env (DsAttr dataset "height");
do_call env (Print (PFmt "Number of rows: " v));;
v ← do_call env (DsAttr dataset "crs");
do_call env (Print (PFmt "CRS: " v));;
v ← do_call env (DsAttr dataset "transform");
do_call env (Print (PFmt (String.append "Affine transform:" newline) v));;
v ← do_call env (DsAttr dataset "bounds");
do_call env (Print (PFmt "Boundaries: " v)).

(** <<
    band = dataset.read(1)
    print(band)
    print(type(band))
    plt.imshow(band)
    >> *)
Definition cell_read_band (dataset : DatasetHandle) : M world (ndarray cell) :=
band ← do_call env (DsRead dataset 1 None);
do_call env (Print (PArray band));;
do_call env (Print (PType "numpy.ndarray"));;
do_call env (Imshow band);;
mret band.

(** <<
    bbox = [-3.6955, 51.1869, -2.3002, 51.9855]
    bbox_gdf = gpd.GeoDataFrame(geometry=[box( *bbox)], crs="EPSG: 4326").to_crs(
        "ESRI: 54009"
    )
    _, aff, window = raster_geometry_mask(
        dataset, bbox_gdf.geometry.values, crop=True, all_touched=True
    )
    band_cropped = dataset.read(1, window=window)
    plt.imshow(band_cropped)
    >> *)
Definition cell_crop (dataset : DatasetHandle)
  : M world (list Q * geodataframe * Affine * Window * ndarray cell) :=
let bbox := [-3.6955; 51.1869; -2.3002; 51.9855]%Q in
boxed ← compute env (ShapelyBox bbox);
shp ← unpack boxed;
g ← do_call env (MkGeoDataFrame [shp] "EPSG: 4326");
bbox_gdf ← do_call env (ToCrs g "ESRI: 54009");
shapes ← compute env (GeometryValues bbox_gdf);
'(_, aff, window) ← do_call env (RasterGeometryMask dataset shapes true true);
band_cropped ← do_call env (DsRead dataset 1 (Some window));
do_call env (Imshow band_cropped);;
mret (bbox, bbox_gdf, aff, window, band_cropped).

(** The names bound when the notebook has run. *)
Record namespace : Type := Namespace {
path : string;
dataset : DatasetHandle;
band : ndarray cell;
bbox : list Q;
bbox_gdf : geodataframe;
aff : Affine;
window : Window;
band_cropped : ndarray cell
}.

Definition notebook : M world namespace :=
'(path, dataset) ← cell_read_file;
cell_properties dataset;;
band ← cell_read_band dataset;
'(bbox, bbox_gdf, aff, window, band_cropped) ← cell_crop dataset;
mret (Namespace path dataset band bbox bbox_gdf aff window band_cropped).

End Cells.
End Raster.

(** ** The longer notebook *)

Module Part000.
Section Cells.
Context {world : Type} (env : environment world).

Definition cell_read_file : M world (string * DatasetHandle) :=
path ← do_call env (Here "data");
file ← compute env
  (OsPathJoin path "GHS_POP_E2020_GLOBE_R2023A_54009_1000_V1_0_R3_C18.tif");
dataset ← do_call env (RioOpen file);
mret (path, dataset).

Definition cell_properties (dataset : DatasetHandle) : M world unit :=
v ← do_call env (DsAttr dataset "count");
do_call env (Print (PFmt "Number of layers: " v));;
v ← do_call env (DsAttr dataset "width");
do_call env (Print (PFmt "Number of columns: " v));;
v ← do_call env (DsAttr dataset "height");
do_call env (Print (PFmt "Number of rows: " v));;
v ← do_call env (DsAttr dataset "crs");
do_call env (Print (PFmt "CRS: " v));;
v ← do_call env (DsAttr dataset "transform");
do_call env (Print (PFmt (String.append "Affine transform:" newline) v));;
v ← do_call env (DsAttr dataset "bounds");
do_call env (Print (PFmt "Boundaries: " v)).

Definition cell_read_band (dataset : DatasetHandle) : M world (ndarray cell) :=
band ← do_call env (DsRead dataset 1 None);
do_call env (Print (PArray band));;
do_call env (Print (PType "numpy.ndarray"));;
do_call env (Imshow band);;
mret band.

Definition cell_crop (dataset : DatasetHandle)
  : M world (list Q * geodataframe * Affine * Window * ndarray cell) :=
let bbox := [-3.6955; 51.1869; -2.3002; 51.9855]%Q in
boxed ← compute env (ShapelyBox bbox);
shp ← unpack boxed;
g ← do_call env (MkGeoDataFrame [shp] "EPSG: 4326");
bbox_gdf ← do_call env (ToCrs g "ESRI: 54009");
shapes ← compute env (GeometryValues bbox_gdf);
'(_, aff, window) ← do_call env (RasterGeometryMask dataset shapes true true);
band_cropped ← do_call env (DsRead dataset 1 (Some window));
do_call env (Imshow band_cropped);;
mret (bbox, bbox_gdf, aff, window, band_cropped).

(** <<
    mask = band_cropped > 5000
    filtered_band = np.where(mask, band_cropped, -200)
    plt.imshow(filtered_band)
    profile = dataset.profile
    print(profile)
    profile.update(
        transform=aff, height=filtered_band.shape[0], width=filtered_band.shape[1]
    )
    with rio.open(here("data/modified_raster.tif"), "w", **profile) as w:
        w.write(filtered_band, 1)
    >> *)
Definition cell_filter_save (dataset : DatasetHandle) (aff : Affine)
  (band_cropped : ndarray cell)
  : M world (ndarray bool * ndarray cell * Profile * DatasetHandle) :=
mask ← compute env (NpGreater band_cropped 5000%Q);
filtered_band ← compute env (NpWhere mask band_cropped (-200)%Q);
do_call env (Imshow filtered_band);;
profile ← do_call env (DsProfile dataset);
do_call env (Print (PProfile profile));;
profile ← compute env
  (ProfileUpdate profile aff (shape0 filtered_band) (shape1 filtered_band));
'(w, _) ← with_ env
  (p ← do_call env (Here "data/modified_raster.tif");
   do_call env (RioOpenW p profile))
  (fun w => do_call env (DsWrite w filtered_band 1));
mret (mask, filtered_band, profile, w).

(** <<
    with rio.open(here("data/modified_raster.tif")) as r:
        d = r.read(1)
        print(r.profile)
        plt.imshow(d)
    >> *)
Definition cell_read_again : M world (DatasetHandle * ndarray cell) :=
with_ env
  (p ← do_call env (Here "data/modified_raster.tif");
   do_call env (RioOpen p))
  (fun r =>
     d ← do_call env (DsRead r 1 None);
     p ← do_call env (DsProfile r);
     do_call env (Print (PProfile p));;
     do_call env (Imshow d);;
     mret d).

(** <<
    x_array = (xr.DataArray(filtered_band).astype("int32") ... )
    print(x_array)
    gdf = vectorize(x_array)
    gdf.columns = ["label", "geometry"]
    gdf.explore()
    >> *)
Definition cell_vectorize (filtered_band : ndarray cell) (aff : Affine)
  : M world (dataarray * geodataframe) :=
x ← compute env (XrDataArray filtered_band);
x ← compute env (XaAstypeInt32 x);
x ← compute env (RioWriteNodata (-200)%Q x);
x ← compute env (RioWriteTransform aff x);
x_array ← compute env (RioSetCrs "ESRI: 54009" x);
do_call env (Print (PDataArray x_array));;
gdf ← do_call env (Vectorize x_array);
gdf ← do_call env (SetColumns gdf ["label"; "geometry"]%string);
do_call env (Explore gdf);;
mret (x_array, gdf).

Record namespace : Type := Namespace {
path : string;
dataset : DatasetHandle;
band : ndarray cell;
bbox : list Q;
bbox_gdf : geodataframe;
aff : Affine;
window : Window;
band_cropped : ndarray cell;
mask : ndarray bool;
filtered_band : ndarray cell;
profile : Profile;
w : DatasetHandle;
r : DatasetHandle;
d : ndarray cell;
x_array : dataarray;
gdf : geodataframe
}.

Definition notebook : M world namespace :=
'(path, dataset) ← cell_read_file;
cell_properties dataset;;
band ← cell_read_band dataset;
'(bbox, bbox_gdf, aff, window, band_cropped) ← cell_crop dataset;
'(mask, filtered_band, profile, w) ← cell_filter_save dataset aff band_cropped;
'(r, d) ← cell_read_again;
'(x_array, gdf) ← cell_vectorize filtered_band aff;
mret (Namespace path dataset band bbox bbox_gdf aff window band_cropped
                mask filtered_band profile w r d x_array gdf).

End Cells.
End Part000.

(** ** Observing a trace *)

(** The operation a call performs, without the arguments that depend on
    earlier answers. *)
Inductive op : Type :=
| OpCompute (name : string)
| OpHere (rel : string)
| OpOpen
| OpOpenW
| OpAttr (name : string)
| OpProfile
| OpRead (indexes : Z) (windowed : bool)
| OpWrite (indexes : Z)
| OpClose
| OpPrint
| OpImshow
| OpGeoDataFrame (crs : string)
| OpToCrs (crs : string)
| OpMask (crop all_touched : bool)
| OpVectorize
| OpSetColumns (cols : list string)
| OpExplore.

Definition op_of (c : call) : op :=
match c with
| Compute f => OpCompute (lib_name f)
| Here rel => OpHere rel
| RioOpen _ => OpOpen
| RioOpenW _ _ => OpOpenW
| DsAttr _ name => OpAttr name
| DsProfile _ => OpProfile
| DsRead _ i win => OpRead i (match win with Some _ => true | None => false end)
| DsWrite _ _ i => OpWrite i
| DsClose _ => OpClose
| Print _ => OpPrint
| Imshow _ => OpImshow
| MkGeoDataFrame _ crs => OpGeoDataFrame crs
| ToCrs _ crs => OpToCrs crs
| RasterGeometryMask _ _ crop all_touched => OpMask crop all_touched
| Vectorize _ => OpVectorize
| SetColumns _ cols => OpSetColumns cols
| Explore _ => OpExplore
end.

Definition ops (tr : list entry) : list op :=
map (fun x => op_of (entry_call x)) tr.

(** The eleven steps of the longer notebook, each with the calls it makes.
    A [print] or [imshow] belongs to the step whose result it shows. *)
Definition step_open_file : list op :=
[OpHere "data"; OpCompute "os.path.join"; OpOpen].

Definition step_print_metadata : list op :=
[OpAttr "count"; OpPrint; OpAttr "width"; OpPrint; OpAttr "height"; OpPrint;
 OpAttr "crs"; OpPrint; OpAttr "transform"; OpPrint; OpAttr "bounds"; OpPrint].

Definition step_read_band : list op := [OpRead 1 false; OpPrint; OpPrint; OpImshow].

Definition step_crop_window : list op :=
[OpCompute "box"; OpGeoDataFrame "EPSG: 4326"; OpToCrs "ESRI: 54009";
 OpCompute "geometry.values"; OpMask true true].

Definition step_read_cropped : list op := [OpRead 1 true; OpImshow].







(** Arguments of the calls of one kind, in the order of the trace. *)
Definition imshow_of (x : entry) : option (ndarray cell) :=
match entry_call x with Imshow a => Some a | _ => None end.

Definition written_of (x : entry) : option (DatasetHandle * ndarray cell * Z) :=
match entry_call x with DsWrite ds arr i => Some (ds, arr, i) | _ => None end.

Definition open_w_of (x : entry) : option (string * Profile) :=
match entry_call x with RioOpenW p kw => Some (p, kw) | _ => None end.

Definition vectorized_of (x : entry) : option dataarray :=
match entry_call x with Vectorize a => Some a | _ => None end.

Definition imshown (tr : list entry) : list (ndarray cell) := omap imshow_of tr.
Definition written (tr : list entry) : list (DatasetHandle * ndarray cell * Z) :=
omap written_of tr.
Definition opened_for_writing (tr : list entry) : list (string * Profile) :=
omap open_w_of tr.
Definition vectorized (tr : list entry) : list dataarray := omap vectorized_of tr.

(** Answers: the profiles the datasets reported and the arrays they read. *)
Definition profile_answer_of (x : entry) : option (DatasetHandle * Profile) :=
match x with
| existT c r =>
    match c return outcome (ret_type c) -> option (DatasetHandle * Profile) with
    | DsProfile ds => fun r =>
        match r with Returned p => Some (ds, p) | Raised _ => None end
    | _ => fun _ => None
    end r
end.

Definition read_answer_of (x : entry)
  : option (DatasetHandle * Z * option Window * ndarray cell) :=
match x with
| existT c r =>
    match c return outcome (ret_type c)
                   -> option (DatasetHandle * Z * option Window * ndarray cell) with
    | DsRead ds i win => fun r =>
        match r with Returned a => Some (ds, i, win, a) | Raised _ => None end
    | _ => fun _ => None
    end r
end.

Definition profile_answers (tr : list entry) : list (DatasetHandle * Profile) :=
omap profile_answer_of tr.
Definition read_answers (tr : list entry)
  : list (DatasetHandle * Z * option Window * ndarray cell) :=
omap read_answer_of tr.

(** The profile the last [profile] a run asked for answered: in a complete
    run of the longer notebook, the profile of the file it has re-opened. *)
Definition reread_profile (tr : list entry) : option Profile :=
snd <$> last (profile_answers tr).

(** The calls that take part in cropping, with their answers. *)
Inductive crop_event : Type :=
| CropFrame (geoms : list geometry) (crs : string) (answer : outcome geodataframe)
| CropToCrs (g : geodataframe) (crs : string) (answer : outcome geodataframe)
| CropMask (ds : DatasetHandle) (shapes : list geometry) (crop all_touched : bool)
    (answer : outcome (ndarray bool * Affine * Window))
| CropRead (ds : DatasetHandle) (indexes : Z) (win : option Window).

Definition crop_event_of (x : entry) : option crop_event :=
match x with
| existT c r =>
    match c return outcome (ret_type c) -> option crop_event with
    | MkGeoDataFrame geoms crs => fun r => Some (CropFrame geoms crs r)
    | ToCrs g crs => fun r => Some (CropToCrs g crs r)
    | RasterGeometryMask ds shapes crop all_touched => fun r =>
        Some (CropMask ds shapes crop all_touched r)
    | DsRead ds i win => fun _ => Some (CropRead ds i win)
    | _ => fun _ => None
    end r
end.

Definition crop_view (tr : list entry) : list crop_event := omap crop_event_of tr.

(** The exception an outcome carries. *)
Definition outcome_exn {A} (r : outcome A) : option exn :=
match r with Returned _ => None | Raised e => Some e end.

Definition is_close (c : call) : bool :=
match c with DsClose _ => true | _ => false end.

(** [uncaught tr res]: the trace [tr] and the exception [res] that reached
    the top level fit a script without handlers.  Calls succeed up to the
    first one that raises; after it nothing runs but the [close] of the
    [with] block the failure happened in; [res] is the exception of the last
    call made, and there is none when no call raised. *)
Fixpoint uncaught (tr : list entry) (res : option exn) : Prop :=
match tr with
| [] => res = None
| x :: rest =>
    match entry_raised x with
    | None => uncaught rest res
    | Some e =>
        match rest with
        | [] => res = Some e
        | [y] => is_close (entry_call y) = true
                 /\ res = Some (default e (entry_raised y))
        | _ => False
        end
    end
end.

(** [replays env w tr w']: every logged answer is the answer of the
    environment in the world the previous call left, and [w'] is the world
    the last call left: nothing but the logged calls touched the world. *)
Fixpoint replays {world} (env : environment world) (w : world)
  (tr : list entry) (w' : world) : Prop :=
match tr with
| [] => w = w'
| x :: rest =>
    x = existT (entry_call x) (fst (env (entry_call x) w))
    /\ replays env (snd (env (entry_call x) w)) rest w'
end.

(** ** A reference environment

    An in-memory model of what the libraries do with raster files: a file
    keeps its bands as they were written (a lossless driver, arrays of the
    dtype of the file; an array of another shape is resampled) and, once on
    disk, reports as its profile the library's reading of the keywords it
    was created with.  A window past the edge is clipped.  Every library
    function answers; [rio.set_crs] raises on a CRS the library does not
    know.  Reprojection, the rasterisation behind [raster_geometry_mask],
    the polygonisation behind [vectorize] and the reported profile stay
    parameters. *)

Module RefEnv.

Record raster_file : Type := RasterFile {
rf_profile : Profile;
rf_bands : list (ndarray cell)
}.

Inductive mode : Type := ReadMode | WriteMode.

Record open_dataset : Type := OpenDataset {
od_path : string;
od_mode : mode;
od_file : raster_file
}.

Inductive figure : Type :=
| FigImage (a : ndarray cell)
| FigMap (g : geodataframe).

Record world : Type := World {
files : gmap string raster_file;
opened : gmap nat open_dataset;
next_handle : nat;
stdout : list printable;
figures : list figure
}.

Record geo_libs : Type := GeoLibs {
project_root : string;
valid_crs : string -> bool;
reproject : string -> string -> geometry -> option geometry;
geometry_window :
  Profile -> list geometry -> bool -> bool -> option (ndarray bool * Affine * Window);
polygonize : dataarray -> option geodataframe;
reported_profile : Profile -> Profile
}.

Definition profile_nat (p : Profile) (key : string) : option nat :=
match p !! key with
| Some (VInt z) => if (0 <=? z)%Z then Some (Z.to_nat z) else None
| _ => None
end.

Definition zeros (height width : nat) : ndarray cell :=
NdArray height width (replicate (height * width) 0%Q).

(** Row [i] of an array. *)
Definition row {A} (a : ndarray A) (i : nat) : list A :=
take (shape1 a) (drop (i * shape1 a) (flat a)).

(** The cells of a window: the part of the window that lies within the array
    (a window past the edge is clipped, the array read is smaller). *)
Definition read_window (a : ndarray cell) (win : Window) : ndarray cell :=
let c0 := Z.max 0 (col_off win) in
let r0 := Z.max 0 (row_off win) in
let c1 := Z.min (Z.of_nat (shape1 a)) (col_off win + win_width win) in
let r1 := Z.min (Z.of_nat (shape0 a)) (row_off win + win_height win) in
let wd := Z.to_nat (c1 - c0) in
let ht := Z.to_nat (r1 - r0) in
NdArray ht wd
  (concat (map (fun i => take wd (drop (Z.to_nat c0) (row a i)))
               (seq (Z.to_nat r0) ht))).

(** An array written to a band of another shape is resampled to the shape of
    the band (nearest neighbour). *)
Definition resample (a : ndarray cell) (height width : nat) : ndarray cell :=
NdArray height width
  (concat (map (fun i =>
                  map (fun j =>
                         default 0%Q
                           (cell_at a (i * shape0 a / height) (j * shape1 a / width)))
                      (seq 0 width))
               (seq 0 height))).

(** [dataset.bounds] of a north-up raster. *)
Definition bounds_of (p : Profile) : option pyval :=
match p !! "transform", profile_nat p "width", profile_nat p "height" with
| Some (VAffine t), Some width, Some height =>
    Some (VBounds (af_c t)
                  (Qred (af_f t + af_e t * inject_Z (Z.of_nat height)))
                  (Qred (af_c t + af_a t * inject_Z (Z.of_nat width)))
                  (af_f t))
| _, _, _ => None
end.

Definition closed_error : exn := PyErr "RasterioIOError" "Dataset is closed".

Definition open_handle (od : open_dataset) (w : world) : DatasetHandle * world :=
(next_handle w,
 World (files w) (<[next_handle w := od]> (opened w)) (S (next_handle w))
       (stdout w) (figures w)).

Definition rio_open (p : string) (w : world) : outcome DatasetHandle * world :=
match files w !! p with
| Some f => let '(h, w') := open_handle (OpenDataset p ReadMode f) w in (Returned h, w')
| None => (Raised (PyErr "RasterioIOError" "No such file or directory"), w)
end.

Definition rio_open_w (p : string) (kwargs : Profile) (w : world)
  : outcome DatasetHandle * world :=
match profile_nat kwargs "width", profile_nat kwargs "height",
      profile_nat kwargs "count" with
| Some width, Some height, Some count =>
    let f := RasterFile kwargs (replicate count (zeros height width)) in
    let '(h, w') := open_handle (OpenDataset p WriteMode f) w in
    (Returned h, w')
| _, _, _ => (Raised (PyErr "TypeError" "width, height and count are required"), w)
end.

Definition ds_attr (ds : DatasetHandle) (name : string) (w : world)
  : outcome pyval * world :=
match opened w !! ds with
| None => (Raised closed_error, w)
| Some od =>
    let p := rf_profile (od_file od) in
    match (if String.eqb name "bounds" then bounds_of p else p !! name) with
    | Some v => (Returned v, w)
    | None => (Raised (PyErr "AttributeError" name), w)
    end
end.

Definition ds_profile (ds : DatasetHandle) (w : world) : outcome Profile * world :=
match opened w !! ds with
| None => (Raised closed_error, w)
| Some od => (Returned (rf_profile (od_file od)), w)
end.

Definition ds_read (ds : DatasetHandle) (indexes : Z) (win : option Window)
  (w : world) : outcome (ndarray cell) * world :=
match opened w !! ds with
| None => (Raised closed_error, w)
| Some od =>
    match od_mode od with
    | WriteMode => (Raised (PyErr "UnsupportedOperation" "not readable"), w)
    | ReadMode =>
        if (indexes <? 1)%Z
        then (Raised (PyErr "IndexError" "band index out of range"), w)
        else
          match rf_bands (od_file od) !! Z.to_nat (indexes - 1) with
          | None => (Raised (PyErr "IndexError" "band index out of range"), w)
          | Some a =>
              match win with
              | None => (Returned a, w)
              | Some win => (Returned (read_window a win), w)
              end
          end
    end
end.

Definition ds_write (ds : DatasetHandle) (arr : ndarray cell) (indexes : Z)
  (w : world) : outcome unit * world :=
match opened w !! ds with
| None => (Raised closed_error, w)
| Some od =>
    match od_mode od with
    | ReadMode => (Raised (PyErr "UnsupportedOperation" "not writable"), w)
    | WriteMode =>
        if (indexes <? 1)%Z
        then (Raised (PyErr "IndexError" "band index out of range"), w)
        else
          let i := Z.to_nat (indexes - 1) in
          match rf_bands (od_file od) !! i with
          | None => (Raised (PyErr "IndexError" "band index out of range"), w)
          | Some old =>
              let stored :=
                if decide (shape arr = shape old) then arr
                else resample arr (shape0 old) (shape1 old) in
              let f := RasterFile (rf_profile (od_file od))
                                  (<[i := stored]> (rf_bands (od_file od))) in
              (Returned tt,
               World (files w)
                     (<[ds := OpenDataset (od_path od) WriteMode f]> (opened w))
                     (next_handle w) (stdout w) (figures w))
          end
    end
end.

(** Closing a writer puts the file on disk; what the file reports as its
    profile from then on is the library's reading of the keywords it was
    created with ([reported_profile]: block sizes, for one, are recomputed).
    Closing twice does nothing. *)
Definition ds_close (g : geo_libs) (ds : DatasetHandle) (w : world)
  : outcome unit * world :=
match opened w !! ds with
| None => (Returned tt, w)
| Some od =>
    let files' :=
      match od_mode od with
      | ReadMode => files w
      | WriteMode =>
          <[od_path od := RasterFile (reported_profile g (rf_profile (od_file od)))
                                     (rf_bands (od_file od))]> (files w)
      end in
    (Returned tt,
     World files' (delete ds (opened w)) (next_handle w) (stdout w) (figures w))
end.

Definition crs_error : exn := PyErr "CRSError" "invalid CRS".

Definition to_crs (g : geo_libs) (f : geodataframe) (crs : string)
  : outcome geodataframe :=
if valid_crs g crs
then
  match mapM (reproject g (gdf_crs f) crs) (gdf_geometry f) with
  | Some geoms => Returned (GeoDataFrame (gdf_columns f) (gdf_data f) geoms crs)
  | None => Raised (PyErr "ProjError" "cannot transform")
  end
else Raised crs_error.

Definition set_columns (f : geodataframe) (cols : list string) : outcome geodataframe :=
if decide (length cols = length (gdf_columns f))
then Returned (GeoDataFrame cols (gdf_data f) (gdf_geometry f) (gdf_crs f))
else Raised (PyErr "ValueError" "Length mismatch").

Definition ref_env (g : geo_libs) : environment world :=
fun c =>
  match c return world -> outcome (ret_type c) * world with
  | Compute f => fun w =>
      (match f with
       | RioSetCrs crs _ => if valid_crs g crs then Returned tt else Raised crs_error
       | _ => Returned tt
       end, w)
  | Here rel => fun w => (Returned (path_join (project_root g) rel), w)
  | RioOpen p => rio_open p
  | RioOpenW p kwargs => rio_open_w p kwargs
  | DsAttr ds name => ds_attr ds name
  | DsProfile ds => ds_profile ds
  | DsRead ds i win => ds_read ds i win
  | DsWrite ds arr i => ds_write ds arr i
  | DsClose ds => ds_close g ds
  | Print x => fun w =>
      (Returned tt,
       World (files w) (opened w) (next_handle w) (stdout w ++ [x]) (figures w))
  | Imshow a => fun w =>
      (Returned tt,
       World (files w) (opened w) (next_handle w) (stdout w)
             (figures w ++ [FigImage a]))
  | MkGeoDataFrame geoms crs => fun w =>
      (if valid_crs g crs
       then Returned (GeoDataFrame ["geometry"%string] [] geoms crs)
       else Raised crs_error, w)
  | ToCrs f crs => fun w => (to_crs g f crs, w)
  | RasterGeometryMask ds shapes crop all_touched => fun w =>
      match opened w !! ds with
      | None => (Raised closed_error, w)
      | Some od =>
          match geometry_window g (rf_profile (od_file od)) shapes crop all_touched with
          | Some r => (Returned r, w)
          | None => (Raised (PyErr "ValueError" "Input shapes do not overlap raster."), w)
          end
      end
  | Vectorize x => fun w =>
      (match polygonize g x with
       | Some f => Returned f
       | None => Raised (PyErr "ValueError" "cannot vectorize")
       end, w)
  | SetColumns f cols => fun w => (set_columns f cols, w)
  | Explore f => fun w =>
      (Returned tt,
       World (files w) (opened w) (next_handle w) (stdout w) (figures w ++ [FigMap f]))
  end.
Arguments ref_env : simpl never.

End RefEnv.

(** ** A small concrete world

    A 3 x 4 float raster with nodata -200 under the project root, a
    masking routine that answers the 2 x 2 window at row 1, column 1, an
    identity reprojection and a polygonisation with one square per value. *)

Module Demo.
Import RefEnv.

Definition input_path : string :=
"/repo/data/GHS_POP_E2020_GLOBE_R2023A_54009_1000_V1_0_R3_C18.tif".

Definition input_transform : Affine :=
MkAffine 1000 0 (-41000) 0 (-1000) 6000000.

Definition input_profile : Profile :=
<["driver" := VStr "GTiff"]>
  (<["dtype" := VStr "float64"]>
    (<["nodata" := VNum (-200)]>
      (<["width" := VInt 4]>
        (<["height" := VInt 3]>
          (<["count" := VInt 1]>
            (<["crs" := VStr "ESRI:54009"]>
              (<["transform" := VAffine input_transform]>
                (<["blockxsize" := VInt 4]>
                  (<["blockysize" := VInt 1]>
                    (<["tiled" := VBool false]> ∅)))))))))).

Definition input_band : ndarray cell :=
NdArray 3 4
  [ -200;     12;   6100;   -200;
    0.75; 5000.5;   7000;      0;
    -200;   -200;   5000; 4999.5 ]%Q.

Definition crop_transform : Affine :=
MkAffine 1000 0 (-40000) 0 (-1000) 5999000.

Definition crop_window : Window := MkWindow 1 1 2 2.

Definition square : geometry := box 0 0 1 1.

(** A file in strips reports blocks as wide as the raster. *)
Definition strip_blocks (p : Profile) : Profile :=
match p !! "width" with
| Some width => <["blockxsize" := width]> p
| None => p
end.

Definition libs : geo_libs :=
GeoLibs "/repo"
        (fun _ => true)
        (fun _ _ geom => Some geom)
        (fun _ _ _ _ =>
           Some (NdArray 2 2 [false; false; false; false], crop_transform, crop_window))
        (fun x =>
           Some (GeoDataFrame ["_data"; "geometry"]%string
                   (flat (xa_data x))
                   (map (fun _ => square) (flat (xa_data x)))
                   (default "ESRI: 54009"%string (xa_crs x))))
        strip_blocks.

Definition world0 : world :=
World {[ input_path := RasterFile input_profile [input_band] ]} ∅ 0 [] [].

(** A world without the input file. *)
Definition empty_world : world := World ∅ ∅ 0 [] [].

(** The same libraries on a full disk: writing a band raises, and so does
    closing the file. *)
Definition disk_full : exn := PyErr "RasterioIOError" "write failed: no space left".
Definition close_failed : exn := PyErr "RasterioIOError" "close failed: no space left".

Definition full_disk_env : environment world :=
fun c =>
  match c return world -> outcome (ret_type c) * world with
  | DsWrite _ _ _ => fun w => (Raised disk_full, w)
  | DsClose ds => fun w =>
      match opened w !! ds with
      | Some (OpenDataset _ WriteMode _) => (Raised close_failed, w)
      | _ => ref_env libs (DsClose ds) w
      end
  | c' => ref_env libs c'
  end.

End Demo.

(** ** Vocabulary of the statements *)

(** What the filter leaves in a cell: more than 5000, or the fill value. *)
Definition in_filter_range (c : cell) : Prop := (5000 < c)%Q \/ c = (-200)%Q.

(** The bounding box around the Bristol channel, as [box] builds it. *)
Definition bristol_channel : geometry := box (-3.6955) 51.1869 (-2.3002) 51.9855.

(** The cropping calls of a run that got through the crop cell: the frame
    [g] is built in EPSG:4326 and reprojected to [bbox_gdf], the masking
    routine is asked once and answers [(m, aff, window)], and the band is
    read through [window]. *)
Definition crop_calls (dataset : DatasetHandle) (g bbox_gdf : geodataframe)
  (m : ndarray bool) (aff : Affine) (window : Window) : list crop_event :=
[CropFrame [bristol_channel] "EPSG: 4326" (Returned g);
 CropToCrs g "ESRI: 54009" (Returned bbox_gdf);
 CropMask dataset (gdf_geometry bbox_gdf) true true (Returned (m, aff, window));
 CropRead dataset 1 (Some window)].

(** The cells of the longer notebook that the shorter one does not have,
    started from the names the shorter one has bound. *)
Definition cells_after_crop {world} (env : environment world) (ns : Raster.namespace)
  : M world Part000.namespace :=
'(mask, filtered_band, profile, w) ←
  Part000.cell_filter_save env (Raster.dataset ns) (Raster.aff ns)
                           (Raster.band_cropped ns);
'(r, d) ← Part000.cell_read_again env;
'(x_array, gdf) ← Part000.cell_vectorize env filtered_band (Raster.aff ns);
mret (Part000.Namespace (Raster.path ns) (Raster.dataset ns) (Raster.band ns)
        (Raster.bbox ns) (Raster.bbox_gdf ns) (Raster.aff ns) (Raster.window ns)
        (Raster.band_cropped ns) mask filtered_band profile w r d x_array gdf).

(** The names of the longer notebook that the shorter one binds too. *)
Definition common_names (ns : Part000.namespace) : Raster.namespace :=
Raster.Namespace (Part000.path ns) (Part000.dataset ns) (Part000.band ns)
  (Part000.bbox ns) (Part000.bbox_gdf ns) (Part000.aff ns) (Part000.window ns)
  (Part000.band_cropped ns).






Definition is_returned {A} (r : outcome A) : bool :=
match r with Returned _ => true | Raised _ => false end.

(** A program only adds to the log. *)
Definition grows {world A} (m : M world A) : Prop :=
forall s, exists new, st_log (snd (m s)) = new ++ st_log s.

(** ** More observations of a trace *)

(** The handles the library answered when a dataset was opened. *)
Definition open_answer_of (x : entry) : option DatasetHandle :=
match x with
| existT c r =>
    match c return outcome (ret_type c) -> option DatasetHandle with
    | RioOpen _ | RioOpenW _ _ => fun r =>
        match r with Returned h => Some h | Raised _ => None end
    | _ => fun _ => None
    end r
end.

Definition open_r_answer_of (x : entry) : option DatasetHandle :=
match x with
| existT c r =>
    match c return outcome (ret_type c) -> option DatasetHandle with
    | RioOpen _ => fun r =>
        match r with Returned h => Some h | Raised _ => None end
    | _ => fun _ => None
    end r
end.

Definition open_w_answer_of (x : entry) : option DatasetHandle :=
match x with
| existT c r =>
    match c return outcome (ret_type c) -> option DatasetHandle with
    | RioOpenW _ _ => fun r =>
        match r with Returned h => Some h | Raised _ => None end
    | _ => fun _ => None
    end r
end.

(** The handles of the calls that close, that read from and that write to a
    dataset.  Attributes, the profile and the masking routine read. *)
Definition close_of (x : entry) : option DatasetHandle :=
match entry_call x with DsClose ds => Some ds | _ => None end.

Definition read_handle_of (x : entry) : option DatasetHandle :=
match entry_call x with
| DsRead ds _ _ | DsAttr ds _ | DsProfile ds | RasterGeometryMask ds _ _ _ => Some ds
| _ => None
end.

Definition write_handle_of (x : entry) : option DatasetHandle :=
match entry_call x with DsWrite ds _ _ => Some ds | _ => None end.

Definition opened_handles (tr : list entry) : list DatasetHandle := omap open_answer_of tr.
Definition opened_to_read (tr : list entry) : list DatasetHandle := omap open_r_answer_of tr.
Definition opened_to_write (tr : list entry) : list DatasetHandle := omap open_w_answer_of tr.
Definition closes (tr : list entry) : list DatasetHandle := omap close_of tr.
Definition read_handles (tr : list entry) : list DatasetHandle := omap read_handle_of tr.
Definition write_handles (tr : list entry) : list DatasetHandle := omap write_handle_of tr.

(** What was printed, and the attributes the datasets answered. *)
Definition print_of (x : entry) : option printable :=
match entry_call x with Print p => Some p | _ => None end.

Definition attr_answer_of (x : entry) : option (string * pyval) :=
match x with
| existT c r =>
    match c return outcome (ret_type c) -> option (string * pyval) with
    | DsAttr _ name => fun r =>
        match r with Returned v => Some (name, v) | Raised _ => None end
    | _ => fun _ => None
    end r
end.

Definition printed (tr : list entry) : list printable := omap print_of tr.
Definition attr_answers (tr : list entry) : list (string * pyval) := omap attr_answer_of tr.

(** The labels of the six metadata lines, each with the attribute it shows. *)
Definition metadata_labels : list (string * string) :=
[("Number of layers: ", "count"); ("Number of columns: ", "width");
 ("Number of rows: ", "height"); ("CRS: ", "crs");
 (String.append "Affine transform:" newline, "transform");
 ("Boundaries: ", "bounds")]%string.

Definition metadata_lines (values : list pyval) : list printable :=
zip_with (fun (l : string * string) v => PFmt (fst l) v) metadata_labels values.


(** A cell that holds a whole number of the int32 range. *)
Definition whole_int32 (c : cell) : Prop :=
exists z : Z, c = inject_Z z /\ -2147483648 <= z < 2147483648.

(** A whole-number band for the statements about the cast. *)
Definition demo_whole_band : ndarray cell := NdArray 2 2 [7000; 12; -200; 5001]%Q.

(** * Properties *)

(** ** The filtering step *)

Section FilterFacts.

Lemma cell_gt_spec (x t : cell) : cell_gt x t = true <-> (t < x)%Q.
Proof.
unfold cell_gt. rewrite negb_true_iff.
destruct (Qle_bool x t) eqn:E.
- apply Qle_bool_iff in E. split; [discriminate|].
  intros H. exfalso. exact (Qlt_not_le _ _ H E).
- split; [intros _|reflexivity].
  apply Qnot_le_lt. intros H. apply Qle_bool_iff in H. congruence.
Qed.

Lemma cell_gt_false (x t : cell) : cell_gt x t = false <-> ~ (t < x)%Q.
Proof.
rewrite <- cell_gt_spec. destruct (cell_gt x t); split; congruence.
Qed.

Lemma zip_with_map_self {A B C} (f : B -> A -> C) (g : A -> B) (l : list A) :
  zip_with f (map g l) l = map (fun a => f (g a) a) l.
Proof. induction l as [|a l IH]; simpl; [reflexivity|]. now rewrite IH. Qed.

Lemma lookup_map {A B} (f : A -> B) (l : list A) (i : nat) :
  map f l !! i = f <$> l !! i.
Proof.
revert i. induction l as [|a l IH]; intros [|i]; simpl; try reflexivity.
apply IH.
Qed.

Lemma filtered_band_unfold (b : ndarray cell) :
  filtered_band_of b = NdArray (shape0 b) (shape1 b) (map keep_or_fill (flat b)).
Proof.
unfold filtered_band_of, mask_of, np_where, np_gt. simpl.
f_equal. apply zip_with_map_self.
Qed.

Lemma keep_or_fill_keeps (c : cell) : (threshold < c)%Q -> keep_or_fill c = c.
Proof. intros H. unfold keep_or_fill. apply cell_gt_spec in H. now rewrite H. Qed.

Lemma keep_or_fill_fills (c : cell) : ~ (threshold < c)%Q -> keep_or_fill c = fill_value.
Proof. intros H. unfold keep_or_fill. apply cell_gt_false in H. now rewrite H. Qed.

Lemma keep_or_fill_idem (c : cell) : keep_or_fill (keep_or_fill c) = keep_or_fill c.
Proof.
unfold keep_or_fill. destruct (cell_gt c threshold) eqn:E.
- now rewrite E.
- reflexivity.
Qed.

Lemma keep_or_fill_range (c : cell) :
  (threshold < keep_or_fill c)%Q \/ keep_or_fill c = fill_value.
Proof.
unfold keep_or_fill. destruct (cell_gt c threshold) eqn:E.
- left. now apply cell_gt_spec.
- now right.
Qed.

Lemma filtered_band_cell (b : ndarray cell) (i j : nat) :
  cell_at (filtered_band_of b) i j = keep_or_fill <$> cell_at b i j.
Proof.
rewrite filtered_band_unfold. unfold cell_at. simpl.
destruct (decide (j < shape1 b)%nat); [apply lookup_map|reflexivity].
Qed.


(** C1.  The filtered band has the shape of the cropped band, and its cell
    at every position is the cell of the cropped band at that position when
    that is strictly greater than 5000 and -200 otherwise; positions outside
    the cropped band are outside the filtered band. *)
Theorem filtered_band_elementwise (band_cropped : ndarray cell) :
  shape (filtered_band_of band_cropped) = shape band_cropped
  /\ length (flat (filtered_band_of band_cropped)) = length (flat band_cropped)
  /\ forall i j : nat,
       match cell_at band_cropped i j with
       | Some c =>
           ((5000 < c)%Q -> cell_at (filtered_band_of band_cropped) i j = Some c)
           /\ (~ (5000 < c)%Q ->
               cell_at (filtered_band_of band_cropped) i j = Some (-200)%Q)
       | None => cell_at (filtered_band_of band_cropped) i j = None
       end.
Proof.
split; [reflexivity|]. split.
- rewrite filtered_band_unfold. simpl. apply length_map.
- intros i j. rewrite filtered_band_cell.
  destruct (cell_at band_cropped i j) as [c|]; simpl; [|reflexivity].
  split; intros H.
  + now rewrite keep_or_fill_keeps.
  + now rewrite keep_or_fill_fills.
Qed.

(** C9.  Filtering is idempotent: filtering a filtered band changes nothing. *)
Theorem filtered_band_idempotent (band_cropped : ndarray cell) :
  filtered_band_of (filtered_band_of band_cropped) = filtered_band_of band_cropped.
Proof.
rewrite !filtered_band_unfold. simpl. f_equal.
rewrite map_map. apply map_ext. exact keep_or_fill_idem.
Qed.

End FilterFacts.

(** ** Running a notebook against an arbitrary environment

    The proofs below execute a notebook symbolically: every call is answered
    by a value or by an exception, one case each. *)

Ltac unfold_cells :=
  unfold Part000.notebook, Part000.cell_read_file, Part000.cell_properties,
    Part000.cell_read_band, Part000.cell_crop, Part000.cell_filter_save,
    Part000.cell_read_again, Part000.cell_vectorize,
    Raster.notebook, Raster.cell_read_file, Raster.cell_properties,
    Raster.cell_read_band, Raster.cell_crop,
    compute, with_, finally, unpack, raise, do_call, mbind, M_bind, mret, M_ret in *.

Ltac split_answer_in H :=
  repeat match type of H with
         | context [match ?a with pair _ _ => _ end] => is_var a; destruct a
         end.

(* The next call of the run in hypothesis [H]: a successful run got a value. *)
Ltac answer_in H env :=
  match type of H with
  | context [match env ?c ?w with pair _ _ => _ end] =>
      let r := fresh "r" in
      let w' := fresh "w" in
      let E := fresh "E" in
      destruct (env c w) as [r w'] eqn:E; destruct r as [r|r];
      [cbn in r; split_answer_in H|]; cbn in H; try discriminate H
  end.

Ltac run_in H env :=
  unfold_cells; cbn in H; repeat answer_in H env; injection H as <- <-.

Ltac split_answer :=
  repeat match goal with
         | |- context [match ?a with pair _ _ => _ end] => is_var a; destruct a
         end.

(* The next call of the run in the goal, with both answers. *)
Ltac answer env :=
  match goal with
  | |- context [match env ?c ?w with pair _ _ => _ end] =>
      let r := fresh "r" in
      let w' := fresh "w" in
      let E := fresh "E" in
      destruct (env c w) as [r w'] eqn:E; destruct r as [r|r];
      [cbn in r; split_answer|]; cbn
  end.

Ltac replay env :=
  repeat match goal with
         | E : env ?c ?w = _ |- context [env ?c ?w] => rewrite E; cbn
         end.

Ltac in_list := repeat first [apply list_elem_of_here | apply list_elem_of_further].

Section AnyEnvironment.
Context {world : Type} (env : environment world).




(** C2.  The profile the output file is opened with is the profile the input
    dataset reported, except for three keys: [transform] is the transform
    the masking routine returned for the crop, [height] and [width] are the
    dimensions of the filtered band.  Every other key, [nodata], [crs] and
    [dtype] among them, has the value it has in the input profile. *)
Theorem written_profile_frame (w0 : world) (ns : Part000.namespace)
  (s : state world) :
  Part000.notebook env (init w0) = (Returned ns, s) ->
  exists (input_profile reread_profile : Profile) (p : string) (m : ndarray bool),
    profile_answers (trace s)
    = [(Part000.dataset ns, input_profile); (Part000.r ns, reread_profile)]
    /\ opened_for_writing (trace s) = [(p, Part000.profile ns)]
    /\ CropMask (Part000.dataset ns) (gdf_geometry (Part000.bbox_gdf ns)) true true
         (Returned (m, Part000.aff ns, Part000.window ns)) ∈ crop_view (trace s)
    /\ Part000.profile ns !! "transform" = Some (VAffine (Part000.aff ns))
    /\ Part000.profile ns !! "height"
       = Some (VInt (Z.of_nat (shape0 (Part000.filtered_band ns))))
    /\ Part000.profile ns !! "width"
       = Some (VInt (Z.of_nat (shape1 (Part000.filtered_band ns))))
    /\ forall key : string,
         key <> "transform"%string -> key <> "height"%string -> key <> "width"%string ->
         Part000.profile ns !! key = input_profile !! key.
Proof.
intros H. run_in H env. cbn.
eexists _, _, _, _. repeat split.
- in_list.
- unfold profile_update. now simplify_map_eq.
- unfold profile_update. now simplify_map_eq.
- unfold profile_update. now simplify_map_eq.
- intros key H1 H2 H3. unfold profile_update. now rewrite !lookup_insert_ne.
Qed.

(** C6.  When the nodata value of the input raster is -200, that one value is
    what every filtered-out cell is replaced with, the nodata value of the
    profile the output raster is opened with, and the nodata value of the
    labelled array passed to vectorisation. *)
Theorem nodata_sentinel_shared (w0 : world) (ns : Part000.namespace)
  (s : state world) (input_profile : Profile) :
  Part000.notebook env (init w0) = (Returned ns, s) ->
  head (profile_answers (trace s)) = Some (Part000.dataset ns, input_profile) ->
  input_profile !! "nodata" = Some (VNum (-200)) ->
  (forall (i j : nat) (c : cell),
      cell_at (Part000.band_cropped ns) i j = Some c -> ~ (5000 < c)%Q ->
      cell_at (Part000.filtered_band ns) i j = Some (-200)%Q)
  /\ (exists p : string,
        opened_for_writing (trace s) = [(p, Part000.profile ns)]
        /\ Part000.profile ns !! "nodata" = Some (VNum (-200)))
  /\ vectorized (trace s) = [Part000.x_array ns]
  /\ xa_nodata (Part000.x_array ns) = Some (-200)%Q.
Proof.
intros H Hin Hnodata. run_in H env. cbn in *.
injection Hin as <-. repeat split.
- intros i j c Hc Hle.
  match type of Hc with
  | cell_at ?b _ _ = _ => pose proof (filtered_band_cell b i j) as Hf
  end.
  rewrite Hc in Hf. simpl in Hf. rewrite keep_or_fill_fills in Hf by assumption.
  exact Hf.
- eexists. split; [reflexivity|].
  unfold profile_update. now rewrite !lookup_insert_ne.
Qed.

(** C7.  In both notebooks the crop window comes from one call of the masking
    routine, on the geometry of the Bristol-channel box reprojected from
    EPSG:4326 to ESRI:54009, with [crop] and [all_touched] set; the window it
    returns is the window of the band read that follows.  These and the two
    plain reads of band 1 are all the cropping and reading the notebooks do. *)
Theorem crop_window_passed_unmodified (w0 : world) :
  (forall (ns : Raster.namespace) (s : state world),
      Raster.notebook env (init w0) = (Returned ns, s) ->
      exists (g : geodataframe) (m : ndarray bool),
        crop_view (trace s)
        = CropRead (Raster.dataset ns) 1 None
          :: crop_calls (Raster.dataset ns) g (Raster.bbox_gdf ns) m
               (Raster.aff ns) (Raster.window ns))
  /\ (forall (ns : Part000.namespace) (s : state world),
        Part000.notebook env (init w0) = (Returned ns, s) ->
        exists (g : geodataframe) (m : ndarray bool),
          crop_view (trace s)
          = CropRead (Part000.dataset ns) 1 None
            :: crop_calls (Part000.dataset ns) g (Part000.bbox_gdf ns) m
                 (Part000.aff ns) (Part000.window ns)
            ++ [CropRead (Part000.r ns) 1 None]).
Proof.
split; intros ns s H; run_in H env; cbn; eexists _, _; reflexivity.
Qed.

End AnyEnvironment.

(** ** The range of the cells after filtering *)

Section CellRange.

Lemma filtered_cells_in_range (b : ndarray cell) (c : cell) :
  c ∈ flat (filtered_band_of b) -> in_filter_range c.
Proof.
rewrite filtered_band_unfold. simpl.
intros H. apply list_elem_of_In, in_map_iff in H as (c0 & <- & _).
exact (keep_or_fill_range c0).
Qed.

Lemma wrap_int32_small (z : Z) :
  -2147483648 <= z < 2147483648 -> wrap_int32 z = z.
Proof.
intros H. unfold wrap_int32.
change (2 ^ 31) with 2147483648. change (2 ^ 32) with 4294967296.
rewrite Z.mod_small by lia. lia.
Qed.

(** The cast to int32 keeps -200 and takes a cell above 5000 to an integer
    that is at least 5000. *)
Lemma cast_in_range (c : cell) :
  in_filter_range c -> (c < 2147483648)%Q ->
  (5000 <= cell_astype_int32 c)%Q \/ cell_astype_int32 c = (-200)%Q.
Proof.
intros [H | ->] Hlt; [left|right; reflexivity].
unfold cell_astype_int32, trunc. destruct c as [n d].
unfold Qlt in H, Hlt. simpl in H, Hlt |- *.
assert (0 <= n) by lia.
rewrite Z.quot_div_nonneg by lia.
assert (5000 <= n / Z.pos d) by (apply Z.div_le_lower_bound; lia).
assert (n / Z.pos d < 2147483648) by (apply Z.div_lt_upper_bound; lia).
rewrite wrap_int32_small by lia.
unfold Qle. simpl. lia.
Qed.

End CellRange.

Section AnyEnvironmentRange.
Context {world : Type} (env : environment world).

(** C10, as the code has it.  Every cell of the filtered band, which is the
    array written to the output raster, is strictly greater than 5000 or
    exactly -200.  The array passed to vectorisation is the filtered band
    cast to int32: each of its cells is the truncation of the filtered cell
    at its position, and (for cells below 2^31) it is at least 5000 or
    exactly -200. *)
Theorem filtered_cells_range (w0 : world) (ns : Part000.namespace)
  (s : state world) :
  Part000.notebook env (init w0) = (Returned ns, s) ->
  (forall c : cell, c ∈ flat (Part000.filtered_band ns) -> in_filter_range c)
  /\ written (trace s) = [(Part000.w ns, Part000.filtered_band ns, 1)]
  /\ vectorized (trace s) = [Part000.x_array ns]
  /\ xa_data (Part000.x_array ns) = astype_int32 (Part000.filtered_band ns)
  /\ forall (i : nat) (c' : cell),
       flat (xa_data (Part000.x_array ns)) !! i = Some c' ->
       exists c : cell,
         flat (Part000.filtered_band ns) !! i = Some c
         /\ c' = cell_astype_int32 c
         /\ in_filter_range c
         /\ ((c < 2147483648)%Q -> (5000 <= c')%Q \/ c' = (-200)%Q).
Proof.
intros H. run_in H env.
cbn [Part000.filtered_band Part000.x_array Part000.w].
match goal with
| |- context [np_where (np_gt ?b _) ?b _] =>
    change (np_where (np_gt b 5000%Q) b (-200)%Q) with (filtered_band_of b);
    pose proof (filtered_cells_in_range b) as Hrange;
    generalize dependent (filtered_band_of b); intros fb Hrange
end.
split; [exact Hrange|].
repeat split.
intros i c' Hc'. cbn in Hc'. rewrite lookup_map in Hc'.
apply fmap_Some in Hc' as (c & Hc & ->).
assert (Hr : in_filter_range c) by (eapply Hrange, list_elem_of_lookup_2, Hc).
exists c. repeat split; try assumption.
now apply cast_in_range.
Qed.

End AnyEnvironmentRange.

(** ** The two notebooks side by side *)

Section LogGrowth.
Context {world : Type}.

Lemma grows_ret {A} (a : A) : grows (mret a : M world A).
Proof. intros s. now exists []. Qed.

Lemma grows_unpack {A} (o : option A) : grows (unpack o : M world A).
Proof. intros s. exists []. now destruct o. Qed.

Lemma grows_call (env : environment world) (c : call) : grows (do_call env c).
Proof.
intros s. unfold do_call. destruct (env c (st_world s)) as [r w'].
now exists [existT c r].
Qed.

Lemma grows_bind {A B} (m : M world A) (k : A -> M world B) :
  grows m -> (forall a, grows (k a)) -> grows (m ≫= k).
Proof.
intros Hm Hk s. unfold mbind, M_bind.
destruct (Hm s) as [new1 H1]. destruct (m s) as [[a|e] s1]; simpl in H1.
- destruct (Hk a s1) as [new2 H2]. exists (new2 ++ new1).
  now rewrite H2, H1, app_assoc.
- now exists new1.
Qed.

Lemma grows_compute (env : environment world) (f : libfun) : grows (compute env f).
Proof.
unfold compute. apply grows_bind; [apply grows_call|].
intros _. apply grows_ret.
Qed.

Lemma grows_finally {A} (body : M world A) (cleanup : M world unit) :
  grows body -> grows cleanup -> grows (finally body cleanup).
Proof.
intros Hb Hc s. unfold finally.
destruct (Hb s) as [new1 H1]. destruct (body s) as [[a|e] s1]; simpl in H1;
  destruct (Hc s1) as [new2 H2]; destruct (cleanup s1) as [[[]|e'] s2];
  simpl in H2; exists (new2 ++ new1); simpl; now rewrite H2, H1, app_assoc.
Qed.

Lemma grows_with {A} (env : environment world) (open_ : M world DatasetHandle)
  (body : DatasetHandle -> M world A) :
  grows open_ -> (forall ds, grows (body ds)) -> grows (with_ env open_ body).
Proof.
intros Ho Hb. unfold with_.
apply grows_bind; [assumption|]. intros ds.
apply grows_bind; [|intros a; apply grows_ret].
apply grows_finally; [apply Hb|exact (grows_call env (DsClose ds))].
Qed.

End LogGrowth.

Ltac grows_step :=
  first
    [ apply grows_ret | apply grows_unpack
    | apply grows_with | apply grows_bind
    | match goal with
      | |- forall _, _ => intro
      | |- grows (compute ?e ?f) => exact (grows_compute e f)
      | |- grows (do_call ?e ?c) => exact (grows_call e c)
      | |- grows (match ?x with pair _ _ => _ end) => destruct x
      end ].

Section BothNotebooks.
Context {world : Type} (env : environment world).

Lemma cells_after_crop_grow (ns : Raster.namespace) : grows (cells_after_crop env ns).
Proof.
unfold cells_after_crop, Part000.cell_filter_save, Part000.cell_read_again,
  Part000.cell_vectorize.
repeat grows_step.
Qed.

(** The longer notebook is the shorter one followed by three more cells. *)
Lemma notebook_extends (s : state world) :
  Part000.notebook env s = (ns ← Raster.notebook env; cells_after_crop env ns) s.
Proof.
unfold Part000.notebook, Raster.notebook, cells_after_crop.
change (Raster.cell_read_file env) with (Part000.cell_read_file env).
change (Raster.cell_properties env) with (Part000.cell_properties env).
change (Raster.cell_read_band env) with (Part000.cell_read_band env).
change (Raster.cell_crop env) with (Part000.cell_crop env).
unfold mbind, M_bind, mret, M_ret.
destruct (Part000.cell_read_file env s) as [[[p ds]|e] s1]; [|reflexivity].
destruct (Part000.cell_properties env ds s1) as [[[]|e] s2]; [|reflexivity].
destruct (Part000.cell_read_band env ds s2) as [[b|e] s3]; [|reflexivity].
destruct (Part000.cell_crop env ds s3) as [[[[[[bb g] a] win] bc]|e] s4];
  reflexivity.
Qed.

Lemma cells_after_crop_names (ns : Raster.namespace) (s s' : state world)
  (ns' : Part000.namespace) :
  cells_after_crop env ns s = (Returned ns', s') -> common_names ns' = ns.
Proof.
unfold cells_after_crop, mbind, M_bind, mret, M_ret.
destruct (Part000.cell_filter_save env _ _ _ s) as [[[[[m fb] pr] w]|e] s1];
  [|discriminate].
destruct (Part000.cell_read_again env s1) as [[[r d]|e] s2]; [|discriminate].
destruct (Part000.cell_vectorize env fb _ s2) as [[[x g]|e] s3]; [|discriminate].
intros [= <- _]. now destruct ns.
Qed.

(** C5.  The longer notebook begins with the run of the shorter one: from the
    same world it makes the calls of the shorter notebook first, with the
    same arguments and the same answers, and goes on from the state the
    shorter one ends in.  So when the shorter notebook fails the longer one
    fails with the same exception in the same state, and when both reach
    their end they have bound the same path, dataset, band, bounding box,
    affine transform, crop window and cropped band. *)
Theorem notebooks_agree_on_common_cells (w0 : world) :
  Part000.notebook env (init w0)
  = (ns ← Raster.notebook env; cells_after_crop env ns) (init w0)
  /\ trace (snd (Raster.notebook env (init w0)))
     `prefix_of` trace (snd (Part000.notebook env (init w0)))
  /\ (forall e : exn,
        fst (Raster.notebook env (init w0)) = Raised e ->
        Part000.notebook env (init w0)
        = (Raised e, snd (Raster.notebook env (init w0))))
  /\ (forall (ns : Raster.namespace) (ns' : Part000.namespace),
        fst (Raster.notebook env (init w0)) = Returned ns ->
        fst (Part000.notebook env (init w0)) = Returned ns' ->
        common_names ns' = ns).
Proof.
split; [apply notebook_extends|].
rewrite notebook_extends. unfold mbind, M_bind.
destruct (Raster.notebook env (init w0)) as [[ns|e] s1]; simpl.
- destruct (cells_after_crop_grow ns s1) as [new Hnew].
  destruct (cells_after_crop env ns s1) as [r s2] eqn:E. simpl in Hnew |- *.
  repeat split.
  + unfold trace. rewrite Hnew, rev_app_distr. now exists (rev new).
  + discriminate.
  + intros ns0 ns' [= <-] ->. exact (cells_after_crop_names _ _ _ _ E).
- repeat split.
  + reflexivity.
  + now intros e' [= ->].
  + discriminate.
Qed.

(** C8, as the code has it.  Every library call of either notebook can
    raise, and none is retried, translated or recovered from.  In every run,
    against every environment, the calls succeed up to the first one that
    raises; after it nothing runs but the [close] that the [with] block the
    failure happened in performs on its dataset.  The exception of the
    failing call reaches the top level as it was raised, unless that [close]
    raises too: then the exception of the [close] reaches the top level.  No
    exception reaches it when no call raised.  The world at the end is the
    world the logged calls left, one after the other: no call is repeated
    and nothing is undone. *)
Theorem exceptions_propagate_uncaught (w0 : world) :
  (let '(res, s) := Raster.notebook env (init w0) in
   uncaught (trace s) (outcome_exn res) /\ replays env w0 (trace s) (st_world s))
  /\ (let '(res, s) := Part000.notebook env (init w0) in
      uncaught (trace s) (outcome_exn res)
      /\ replays env w0 (trace s) (st_world s)).
Proof.
split; unfold_cells; cbn;
  repeat answer env;
  (split; [cbn; auto | replay env; repeat split; reflexivity]).
Qed.

End BothNotebooks.

(** ** Writing a raster and reading it again *)

Section ReadingBack.
Context {world : Type} (env : environment world).


End ReadingBack.

Section ReferenceEnvironment.
Import RefEnv.
Context (g : geo_libs).


End ReferenceEnvironment.

(** ** The notebooks in the small concrete world *)

Section ConcreteWorld.
Import RefEnv Demo.

Lemma demo_run_returns :
  is_returned (fst (Part000.notebook (ref_env libs) (init world0))) = true.
Proof. vm_compute. reflexivity. Defined.

(* The run in the concrete world reaches the end: split it into the names it
   has bound and its final state; the other case contradicts the evaluation. *)
Ltac demo_run ns s E :=
  destruct (Part000.notebook (ref_env libs) (init world0)) as [[ns|?] s] eqn:E;
  [|exfalso; pose proof demo_run_returns as R; rewrite E in R; discriminate R].


Lemma written_profile_frame_witness :
  exists (ns : Part000.namespace) (s : state world),
    Part000.notebook (ref_env libs) (init world0) = (Returned ns, s)
    /\ exists (input_profile reread_profile : Profile) (p : string) (m : ndarray bool),
         profile_answers (trace s)
         = [(Part000.dataset ns, input_profile); (Part000.r ns, reread_profile)]
         /\ opened_for_writing (trace s) = [(p, Part000.profile ns)]
         /\ CropMask (Part000.dataset ns) (gdf_geometry (Part000.bbox_gdf ns))
              true true (Returned (m, Part000.aff ns, Part000.window ns))
            ∈ crop_view (trace s)
         /\ Part000.profile ns !! "transform" = Some (VAffine (Part000.aff ns))
         /\ Part000.profile ns !! "height"
            = Some (VInt (Z.of_nat (shape0 (Part000.filtered_band ns))))
         /\ Part000.profile ns !! "width"
            = Some (VInt (Z.of_nat (shape1 (Part000.filtered_band ns))))
         /\ forall key : string,
              key <> "transform"%string -> key <> "height"%string ->
              key <> "width"%string ->
              Part000.profile ns !! key = input_profile !! key.
Proof.
demo_run ns s E. exists ns, s. split; [reflexivity|].
exact (written_profile_frame (ref_env libs) world0 ns s E).
Defined.



(** C8, as the claim has it, fails.  On a full disk writing the band raises
    and the [close] of the [with] block raises too: the run stops with the
    exception of the [close]; the exception of the write, the first failure,
    does not reach the top level.  So it is not true that every exception a
    library call raises propagates to the top level. *)
Lemma close_failure_replaces_write_failure :
  (fst (Part000.notebook full_disk_env (init world0)) = Raised close_failed
   /\ omap entry_raised
        (trace (snd (Part000.notebook full_disk_env (init world0))))
      = [disk_full; close_failed]
   /\ disk_full <> close_failed)
  /\ ~ (forall (world : Type) (env : environment world) (w0 : world)
               (x : entry) (e : exn),
           x ∈ trace (snd (Part000.notebook env (init w0))) ->
           entry_raised x = Some e ->
           fst (Part000.notebook env (init w0)) = Raised e).
Proof.
assert (F : fst (Part000.notebook full_disk_env (init world0)) = Raised close_failed
            /\ omap entry_raised
                 (trace (snd (Part000.notebook full_disk_env (init world0))))
               = [disk_full; close_failed])
  by (vm_compute; split; reflexivity).
assert (Hne : disk_full <> close_failed) by discriminate.
split; [destruct F; repeat split; assumption|].
intros claim. destruct F as (Hres & Htr).
assert (Hin : disk_full
              ∈ omap entry_raised
                  (trace (snd (Part000.notebook full_disk_env (init world0)))))
  by (rewrite Htr; in_list).
apply list_elem_of_omap in Hin as (x & Hin & Hx).
pose proof (claim _ full_disk_env world0 x disk_full Hin Hx) as Hc.
rewrite Hres in Hc. apply Hne. congruence.
Qed.

(** A missing input file: both notebooks stop at [rio.open] with the error of
    the library, after three calls. *)
Example missing_file_propagates :
  fst (Raster.notebook (ref_env libs) (init empty_world))
  = Raised (PyErr "RasterioIOError" "No such file or directory")
  /\ fst (Part000.notebook (ref_env libs) (init empty_world))
     = Raised (PyErr "RasterioIOError" "No such file or directory")
  /\ ops (trace (snd (Part000.notebook (ref_env libs) (init empty_world))))
     = [OpHere "data"; OpCompute "os.path.join"; OpOpen].
Proof. vm_compute. repeat split; reflexivity. Qed.

(** The filter on a small band. *)
Example filtered_band_example :
  filtered_band_of (NdArray 2 2 [5000.5; 7000; -200; 5000]%Q)
  = NdArray 2 2 [5000.5; 7000; -200; -200]%Q.
Proof. reflexivity. Qed.

Lemma nodata_sentinel_shared_witness :
  exists (ns : Part000.namespace) (s : state world),
    Part000.notebook (ref_env libs) (init world0) = (Returned ns, s)
    /\ head (profile_answers (trace s)) = Some (Part000.dataset ns, input_profile)
    /\ input_profile !! "nodata" = Some (VNum (-200))
    /\ (exists p : string,
          opened_for_writing (trace s) = [(p, Part000.profile ns)]
          /\ Part000.profile ns !! "nodata" = Some (VNum (-200)))
    /\ xa_nodata (Part000.x_array ns) = Some (-200)%Q.
Proof.
assert (H1 : match Part000.notebook (ref_env libs) (init world0) with
             | (Returned ns, s) =>
                 head (profile_answers (trace s))
                 = Some (Part000.dataset ns, input_profile)
             | _ => True
             end) by (vm_compute; reflexivity).
assert (H2 : input_profile !! "nodata" = Some (VNum (-200)))
  by (vm_compute; reflexivity).
demo_run ns s E. exists ns, s.
pose proof (nodata_sentinel_shared (ref_env libs) world0 ns s input_profile E H1 H2)
  as (_ & Hw & _ & Hx).
repeat split; assumption.
Defined.

Lemma crop_window_passed_unmodified_witness :
  exists (ns : Part000.namespace) (s : state world) (g : geodataframe)
         (m : ndarray bool),
    Part000.notebook (ref_env libs) (init world0) = (Returned ns, s)
    /\ crop_view (trace s)
       = CropRead (Part000.dataset ns) 1 None
         :: crop_calls (Part000.dataset ns) g (Part000.bbox_gdf ns) m
              (Part000.aff ns) (Part000.window ns)
         ++ [CropRead (Part000.r ns) 1 None].
Proof.
demo_run ns s E.
destruct (proj2 (crop_window_passed_unmodified (ref_env libs) world0) ns s E)
  as (g & m & Hv).
exists ns, s, g, m. split; [reflexivity | exact Hv].
Defined.

Lemma filtered_cells_range_witness :
  exists (ns : Part000.namespace) (s : state world),
    Part000.notebook (ref_env libs) (init world0) = (Returned ns, s)
    /\ (forall c : cell, c ∈ flat (Part000.filtered_band ns) -> in_filter_range c)
    /\ xa_data (Part000.x_array ns) = astype_int32 (Part000.filtered_band ns).
Proof.
demo_run ns s E.
pose proof (filtered_cells_range (ref_env libs) world0 ns s E)
  as (Hr & _ & _ & Hx & _).
exists ns, s. repeat split; assumption.
Defined.

(** The cast of the labelled array on one cell: 5000.5 passes the filter and
    is 5000 afterwards. *)
Example x_array_truncates :
  flat (xa_data (x_array_of (filtered_band_of (NdArray 1 1 [5000.5]%Q)) crop_transform))
  = [5000%Q].
Proof. reflexivity. Qed.

(** C10, as the claim has it, fails.  In the concrete world the cropped band
    is [[5000.5, 7000], [-200, 5000]]; the filter keeps 5000.5, the cast to
    int32 turns it into 5000, and the array passed to vectorisation holds a
    cell that is neither above 5000 nor -200.  So the claim, stated for every
    run, is false. *)
Lemma vectorized_cells_claim_fails :
  (exists (ns : Part000.namespace) (s : state world),
      Part000.notebook (ref_env libs) (init world0) = (Returned ns, s)
      /\ Part000.band_cropped ns = NdArray 2 2 [5000.5; 7000; -200; 5000]%Q
      /\ Part000.filtered_band ns = NdArray 2 2 [5000.5; 7000; -200; -200]%Q
      /\ vectorized (trace s) = [Part000.x_array ns]
      /\ flat (xa_data (Part000.x_array ns)) = [5000; 7000; -200; -200]%Q
      /\ ~ in_filter_range 5000%Q)
  /\ ~ (forall (world : Type) (env : environment world) (w0 : world)
               (ns : Part000.namespace) (s : state world),
           Part000.notebook env (init w0) = (Returned ns, s) ->
           (forall c : cell,
               c ∈ flat (Part000.filtered_band ns) -> in_filter_range c)
           /\ (forall (ds : DatasetHandle) (a : ndarray cell) (i : Z),
                 (ds, a, i) ∈ written (trace s) ->
                 forall c : cell, c ∈ flat a -> in_filter_range c)
           /\ (forall x : dataarray,
                 x ∈ vectorized (trace s) ->
                 forall c : cell, c ∈ flat (xa_data x) -> in_filter_range c)).
Proof.
assert (Hout : ~ in_filter_range 5000%Q).
{ intros [Hlt | Heq]; [|discriminate Heq].
  unfold Qlt in Hlt. simpl in Hlt. lia. }
assert (F : match Part000.notebook (ref_env libs) (init world0) with
            | (Returned ns, s) =>
                Part000.band_cropped ns = NdArray 2 2 [5000.5; 7000; -200; 5000]%Q
                /\ Part000.filtered_band ns
                   = NdArray 2 2 [5000.5; 7000; -200; -200]%Q
                /\ vectorized (trace s) = [Part000.x_array ns]
                /\ flat (xa_data (Part000.x_array ns)) = [5000; 7000; -200; -200]%Q
            | _ => True
            end).
{ vm_compute. repeat split; reflexivity. }
demo_run ns s E. destruct F as (Hb & Hf & Hv & Hx).
split.
- exists ns, s. repeat split; assumption.
- intros claim. destruct (claim _ _ _ ns s E) as (_ & _ & Hall).
  apply Hout, (Hall (Part000.x_array ns)).
  + rewrite Hv. apply list_elem_of_here.
  + rewrite Hx. apply list_elem_of_here.
Qed.

End ConcreteWorld.

(** * Further properties of the notebooks *)

(** ** Datasets: opening, closing, reading and writing *)

Ltac forall_in_list := repeat (constructor; [in_list|]); try constructor.

Section Datasets.
Context {world : Type} (env : environment world).

Lemma handle_discipline (w0 : world) :
  closes (trace (snd (Raster.notebook env (init w0)))) = []
  /\ (let tr := trace (snd (Part000.notebook env (init w0))) in
      closes tr = tail (opened_handles tr)
      /\ write_handles tr = opened_to_write tr
      /\ (length (opened_to_write tr) <= 1)%nat
      /\ Forall (fun ds => ds ∈ opened_to_read tr) (read_handles tr)).
Proof.
split.
- unfold_cells; cbn. repeat answer env; reflexivity.
- unfold_cells; cbn.
  repeat answer env;
    (split; [reflexivity|split; [reflexivity|split; [cbn; lia|forall_in_list]]]).
Qed.

(** X1.  In every run, whatever the libraries answer: the longer notebook
    closes, in order, exactly the datasets it opened after the first one,
    that is the two opened by [with] statements, also when the block raised;
    the input dataset, opened by a plain assignment, is never closed, and the
    shorter notebook closes nothing. *)
Theorem with_blocks_close_their_datasets (w0 : world) :
  closes (trace (snd (Raster.notebook env (init w0)))) = []
  /\ closes (trace (snd (Part000.notebook env (init w0))))
     = tail (opened_handles (trace (snd (Part000.notebook env (init w0))))).
Proof.
destruct (handle_discipline w0) as (H1 & H2 & _). split; assumption.
Qed.

(** X2.  In every run of the longer notebook: a band is written only to the
    dataset that was opened for writing, at most one dataset is opened for
    writing, and every read (of a band, an attribute, the profile, or by the
    masking routine) is from a dataset that was opened for reading. *)
Theorem reads_and_writes_use_the_right_datasets (w0 : world) :
  let tr := trace (snd (Part000.notebook env (init w0))) in
  write_handles tr = opened_to_write tr
  /\ (length (opened_to_write tr) <= 1)%nat
  /\ Forall (fun ds => ds ∈ opened_to_read tr) (read_handles tr).
Proof.
destruct (handle_discipline w0) as (_ & _ & H). exact H.
Qed.

End Datasets.

(** ** What the complete runs pass on *)

Section CompleteRuns.
Context {world : Type} (env : environment world).

(** X3.  In a complete run of the longer notebook, the dimensions of the
    cropped band as it was read are the height and width the output file is
    opened with, the shape of the array written to it and the shape of the
    labelled array passed to vectorisation. *)
Theorem cropped_dimensions_carried_through (w0 : world) (ns : Part000.namespace)
  (s : state world) :
  Part000.notebook env (init w0) = (Returned ns, s) ->
  exists (p : string) (kwargs : Profile) (ds : DatasetHandle) (a : ndarray cell)
         (x : dataarray),
    opened_for_writing (trace s) = [(p, kwargs)]
    /\ written (trace s) = [(ds, a, 1)]
    /\ vectorized (trace s) = [x]
    /\ kwargs !! "height" = Some (VInt (Z.of_nat (shape0 (Part000.band_cropped ns))))
    /\ kwargs !! "width" = Some (VInt (Z.of_nat (shape1 (Part000.band_cropped ns))))
    /\ shape a = shape (Part000.band_cropped ns)
    /\ shape (xa_data x) = shape (Part000.band_cropped ns).
Proof.
intros H. run_in H env. cbn.
eexists _, _, _, _, _. repeat split; unfold profile_update; now simplify_map_eq.
Qed.

(** X4.  In a complete run of the longer notebook, the output file and the
    labelled array are given the same affine transform, the one the masking
    routine answered.  The CRS and the dtype of the output file are those of
    the input profile, while the labelled array gets the CRS string
    "ESRI: 54009" and the dtype int32 whatever the input has. *)
Theorem output_georeferencing (w0 : world) (ns : Part000.namespace)
  (s : state world) :
  Part000.notebook env (init w0) = (Returned ns, s) ->
  exists (m : ndarray bool) (p : string) (kwargs input_profile : Profile)
         (x : dataarray),
    CropMask (Part000.dataset ns) (gdf_geometry (Part000.bbox_gdf ns)) true true
      (Returned (m, Part000.aff ns, Part000.window ns)) ∈ crop_view (trace s)
    /\ head (profile_answers (trace s)) = Some (Part000.dataset ns, input_profile)
    /\ opened_for_writing (trace s) = [(p, kwargs)]
    /\ vectorized (trace s) = [x]
    /\ kwargs !! "transform" = Some (VAffine (Part000.aff ns))
    /\ xa_transform x = Some (Part000.aff ns)
    /\ kwargs !! "crs" = input_profile !! "crs"
    /\ xa_crs x = Some "ESRI: 54009"%string
    /\ kwargs !! "dtype" = input_profile !! "dtype"
    /\ xa_dtype x = Some "int32"%string.
Proof.
intros H. run_in H env. cbn.
eexists _, _, _, _, _. repeat split; try in_list;
  unfold profile_update; now simplify_map_eq.
Qed.

(** X5.  A complete run of the shorter notebook makes exactly the calls of
    the first five steps.  It asks the dataset for count, width, height, crs,
    transform and bounds and prints each answer under its label, then the
    band and its type; it shows the band and the cropped band; it opens no
    file for writing and writes nothing. *)
Theorem short_notebook_steps (w0 : world) (ns : Raster.namespace)
  (s : state world) :
  Raster.notebook env (init w0) = (Returned ns, s) ->
  ops (trace s)
  = step_open_file ++ step_print_metadata ++ step_read_band ++ step_crop_window
    ++ step_read_cropped
  /\ map fst (attr_answers (trace s)) = map snd metadata_labels
  /\ printed (trace s)
     = metadata_lines (map snd (attr_answers (trace s)))
       ++ [PArray (Raster.band ns); PType "numpy.ndarray"]
  /\ imshown (trace s) = [Raster.band ns; Raster.band_cropped ns]
  /\ read_answers (trace s)
     = [(Raster.dataset ns, 1, None, Raster.band ns);
        (Raster.dataset ns, 1, Some (Raster.window ns), Raster.band_cropped ns)]
  /\ written (trace s) = []
  /\ opened_for_writing (trace s) = [].
Proof.
intros H. run_in H env. cbn. repeat split; reflexivity.
Qed.

(** X6.  What a complete run of the longer notebook prints, in order: the six
    metadata lines with the attributes the dataset answered, the band, its
    type, the profile of the input dataset as it was before the update (the
    print comes before [profile.update]), the profile the re-opened file
    reported, and the labelled array. *)
Theorem long_notebook_prints (w0 : world) (ns : Part000.namespace)
  (s : state world) :
  Part000.notebook env (init w0) = (Returned ns, s) ->
  exists (input_profile reread_profile : Profile),
    profile_answers (trace s)
    = [(Part000.dataset ns, input_profile); (Part000.r ns, reread_profile)]
    /\ map fst (attr_answers (trace s)) = map snd metadata_labels
    /\ printed (trace s)
       = metadata_lines (map snd (attr_answers (trace s)))
         ++ [PArray (Part000.band ns); PType "numpy.ndarray";
             PProfile input_profile; PProfile reread_profile;
             PDataArray (Part000.x_array ns)]
    /\ Part000.profile ns
       = profile_update input_profile (Part000.aff ns)
           (shape0 (Part000.filtered_band ns)) (shape1 (Part000.filtered_band ns)).
Proof.
intros H. run_in H env. cbn. eexists _, _. repeat split; reflexivity.
Qed.

End CompleteRuns.

(** ** The cast of the labelled array *)

Section Cast.

Lemma wrap_int32_bounds (z : Z) : -2147483648 <= wrap_int32 z < 2147483648.
Proof.
unfold wrap_int32.
change (2 ^ 31) with 2147483648. change (2 ^ 32) with 4294967296.
pose proof (Z.mod_pos_bound (z + 2147483648) 4294967296 eq_refl). lia.
Qed.

Lemma cast_whole (c : cell) : whole_int32 c -> cell_astype_int32 c = c.
Proof.
intros (z & -> & Hz). unfold cell_astype_int32, trunc. simpl.
rewrite Z.quot_1_r. now rewrite wrap_int32_small.
Qed.

Lemma keep_or_fill_whole (c : cell) : whole_int32 c -> whole_int32 (keep_or_fill c).
Proof.
intros H. unfold keep_or_fill. destruct (cell_gt c threshold); [assumption|].
exists (-200). split; [reflexivity|lia].
Qed.

Lemma map_fixed {A} (f : A -> A) (l : list A) :
  (forall a, a ∈ l -> f a = a) -> map f l = l.
Proof.
induction l as [|a l IH]; intros H; simpl; [reflexivity|].
rewrite H by apply list_elem_of_here.
rewrite IH; [reflexivity|]. intros b Hb. apply H. now apply list_elem_of_further.
Qed.

Lemma cast_above (c : cell) :
  (5000 < c)%Q -> (c < 2147483648)%Q -> (5000 <= cell_astype_int32 c)%Q.
Proof.
intros H Hlt. unfold cell_astype_int32, trunc. destruct c as [n d].
unfold Qlt in H, Hlt. simpl in H, Hlt |- *.
assert (0 <= n) by lia.
rewrite Z.quot_div_nonneg by lia.
assert (5000 <= n / Z.pos d) by (apply Z.div_le_lower_bound; lia).
assert (n / Z.pos d < 2147483648) by (apply Z.div_lt_upper_bound; lia).
rewrite wrap_int32_small by lia.
unfold Qle. simpl. lia.
Qed.

(** X7.  Every cell of the labelled array built from a filtered band is a
    whole number of the int32 range, whatever the cells of the band are. *)
Theorem labelled_array_cells_are_int32 (filtered_band : ndarray cell) (aff : Affine)
  (c : cell) :
  c ∈ flat (xa_data (x_array_of filtered_band aff)) -> whole_int32 c.
Proof.
simpl. intros H. apply list_elem_of_In, in_map_iff in H as (c0 & <- & _).
exists (wrap_int32 (trunc c0)). split; [reflexivity|apply wrap_int32_bounds].
Qed.

(** X8.  When every cell of the cropped band is a whole number of the int32
    range, the cast changes nothing: the data of the labelled array is the
    filtered band, and each of its cells is strictly greater than 5000 or
    exactly -200. *)
Theorem whole_number_band_is_vectorized_unchanged (band_cropped : ndarray cell)
  (aff : Affine) :
  Forall whole_int32 (flat band_cropped) ->
  xa_data (x_array_of (filtered_band_of band_cropped) aff)
  = filtered_band_of band_cropped
  /\ forall c : cell,
       c ∈ flat (xa_data (x_array_of (filtered_band_of band_cropped) aff)) ->
       in_filter_range c.
Proof.
intros H.
assert (E : xa_data (x_array_of (filtered_band_of band_cropped) aff)
            = filtered_band_of band_cropped).
{ rewrite filtered_band_unfold. simpl. unfold astype_int32. simpl. f_equal.
  apply map_fixed. intros c Hc.
  apply list_elem_of_In, in_map_iff in Hc as (c0 & <- & Hc0).
  apply cast_whole, keep_or_fill_whole.
  rewrite Forall_forall in H. apply H. now apply list_elem_of_In. }
split; [exact E|]. rewrite E. apply filtered_cells_in_range.
Qed.

(** X9.  When the cells of the cropped band are below 2^31, the labelled
    array holds the nodata value -200 at a position exactly when the cropped
    band has a cell there that is not above 5000: the cast neither makes nor
    loses a nodata cell. *)
Theorem labelled_array_nodata_positions (band_cropped : ndarray cell) (aff : Affine)
  (i : nat) :
  Forall (fun c => (c < 2147483648)%Q) (flat band_cropped) ->
  flat (xa_data (x_array_of (filtered_band_of band_cropped) aff)) !! i
  = Some (-200)%Q
  <-> exists c : cell, flat band_cropped !! i = Some c /\ ~ (5000 < c)%Q.
Proof.
intros H. rewrite filtered_band_unfold. simpl. rewrite !lookup_map.
destruct (flat band_cropped !! i) as [c|] eqn:E; simpl.
- split.
  + intros Hsome.
    assert (Hc : cell_astype_int32 (keep_or_fill c) = (-200)%Q) by congruence.
    clear Hsome. exists c. split; [reflexivity|]. intros Hgt.
    rewrite keep_or_fill_keeps in Hc by assumption.
    assert (Hlt : (c < 2147483648)%Q).
    { rewrite Forall_forall in H. apply H. eapply list_elem_of_lookup_2, E. }
    pose proof (cast_above c Hgt Hlt) as Hle.
    rewrite Hc in Hle. unfold Qle in Hle. simpl in Hle. lia.
  + intros (c0 & [= <-] & Hn). now rewrite keep_or_fill_fills.
- split; [discriminate|]. now intros (c0 & [=] & _).
Qed.

End Cast.

(** ** The further properties in the small concrete world *)

Section ConcreteWorldAgain.
Import RefEnv Demo.

Lemma demo_long_returns :
  is_returned (fst (Part000.notebook (ref_env libs) (init world0))) = true.
Proof. vm_compute. reflexivity. Defined.

Lemma demo_short_returns :
  is_returned (fst (Raster.notebook (ref_env libs) (init world0))) = true.
Proof. vm_compute. reflexivity. Defined.

Ltac demo_long ns s E :=
  destruct (Part000.notebook (ref_env libs) (init world0)) as [[ns|?] s] eqn:E;
  [|exfalso; pose proof demo_long_returns as R; rewrite E in R; discriminate R].

Ltac demo_short ns s E :=
  destruct (Raster.notebook (ref_env libs) (init world0)) as [[ns|?] s] eqn:E;
  [|exfalso; pose proof demo_short_returns as R; rewrite E in R; discriminate R].

Lemma cropped_dimensions_carried_through_witness :
  exists (ns : Part000.namespace) (s : state world) (p : string) (kwargs : Profile),
    Part000.notebook (ref_env libs) (init world0) = (Returned ns, s)
    /\ opened_for_writing (trace s) = [(p, kwargs)]
    /\ kwargs !! "height" = Some (VInt (Z.of_nat (shape0 (Part000.band_cropped ns))))
    /\ kwargs !! "width" = Some (VInt (Z.of_nat (shape1 (Part000.band_cropped ns)))).
Proof.
demo_long ns s E.
destruct (cropped_dimensions_carried_through (ref_env libs) world0 ns s E)
  as (p & kwargs & ds & a & x & H1 & _ & _ & H4 & H5 & _).
exists ns, s, p, kwargs. repeat split; assumption.
Defined.

Lemma output_georeferencing_witness :
  exists (ns : Part000.namespace) (s : state world) (x : dataarray),
    Part000.notebook (ref_env libs) (init world0) = (Returned ns, s)
    /\ vectorized (trace s) = [x]
    /\ xa_transform x = Some (Part000.aff ns)
    /\ xa_crs x = Some "ESRI: 54009"%string.
Proof.
demo_long ns s E.
destruct (output_georeferencing (ref_env libs) world0 ns s E)
  as (m & p & kwargs & ip & x & _ & _ & _ & H4 & _ & H6 & _ & H8 & _).
exists ns, s, x. repeat split; assumption.
Defined.

Lemma short_notebook_steps_witness :
  exists (ns : Raster.namespace) (s : state world),
    Raster.notebook (ref_env libs) (init world0) = (Returned ns, s)
    /\ ops (trace s)
       = step_open_file ++ step_print_metadata ++ step_read_band
         ++ step_crop_window ++ step_read_cropped.
Proof.
demo_short ns s E. exists ns, s. split; [reflexivity|].
exact (proj1 (short_notebook_steps (ref_env libs) world0 ns s E)).
Defined.

Lemma long_notebook_prints_witness :
  exists (ns : Part000.namespace) (s : state world)
         (input_profile reread_profile : Profile),
    Part000.notebook (ref_env libs) (init world0) = (Returned ns, s)
    /\ printed (trace s)
       = metadata_lines (map snd (attr_answers (trace s)))
         ++ [PArray (Part000.band ns); PType "numpy.ndarray";
             PProfile input_profile; PProfile reread_profile;
             PDataArray (Part000.x_array ns)].
Proof.
demo_long ns s E.
destruct (long_notebook_prints (ref_env libs) world0 ns s E)
  as (ip & rp & _ & _ & H & _).
exists ns, s, ip, rp. split; [reflexivity | exact H].
Defined.

Lemma demo_whole_band_is_whole : Forall whole_int32 (flat demo_whole_band).
Proof.
repeat constructor;
  [exists 7000 | exists 12 | exists (-200) | exists 5001];
  (split; [reflexivity|lia]).
Defined.

Lemma whole_number_band_is_vectorized_unchanged_witness :
  Forall whole_int32 (flat demo_whole_band)
  /\ xa_data (x_array_of (filtered_band_of demo_whole_band) crop_transform)
     = filtered_band_of demo_whole_band.
Proof.
split; [exact demo_whole_band_is_whole|].
exact (proj1 (whole_number_band_is_vectorized_unchanged demo_whole_band
                crop_transform demo_whole_band_is_whole)).
Defined.

Lemma demo_band_below_int32_bound :
  Forall (fun c => (c < 2147483648)%Q) (flat (NdArray 1 3 [5000.5; 5000; -200]%Q)).
Proof. repeat constructor. Defined.

Lemma labelled_array_nodata_positions_witness :
  Forall (fun c => (c < 2147483648)%Q) (flat (NdArray 1 3 [5000.5; 5000; -200]%Q))
  /\ (flat (xa_data (x_array_of (filtered_band_of (NdArray 1 3 [5000.5; 5000; -200]%Q))
                       crop_transform)) !! 1%nat
      = Some (-200)%Q
      <-> exists c : cell,
            flat (NdArray 1 3 [5000.5; 5000; -200]%Q) !! 1%nat = Some c
            /\ ~ (5000 < c)%Q).
Proof.
split; [exact demo_band_below_int32_bound|].
exact (labelled_array_nodata_positions (NdArray 1 3 [5000.5; 5000; -200]%Q)
         crop_transform 1 demo_band_below_int32_bound).
Defined.

Lemma labelled_array_cells_are_int32_witness :
  5000%Q ∈ flat (xa_data (x_array_of (NdArray 1 2 [5000.5; -200]%Q) crop_transform))
  /\ whole_int32 5000%Q.
Proof.
assert (H : 5000%Q
            ∈ flat (xa_data (x_array_of (NdArray 1 2 [5000.5; -200]%Q) crop_transform)))
  by (vm_compute; apply list_elem_of_here).
split; [exact H|].
exact (labelled_array_cells_are_int32 (NdArray 1 2 [5000.5; -200]%Q) crop_transform
         5000%Q H).
Defined.

End ConcreteWorldAgain.
